(** * IAM policies of the Firewall Manager automations

    A shallow embedding of [source/resources/lib/iam.ts]: the construct
    [IAMConstruct], whose constructor builds the two inline policies of the
    Lambda role ([FMSPolicyRead] and [FMSPolicyWrite]), adds eleven
    statements [po0] .. [po10] to them and attaches the cfn_nag suppression
    rules to the policies' CloudFormation resources. *)

From stdpp Require Import base decidable option strings list gmap.

Open Scope string_scope.
Open Scope list_scope.

(** ** JavaScript values and template literals *)

(** The interface [IIam] declares its identifier properties as [string].
    The annotation is erased when the program runs: a property the caller
    left out reads as [undefined]. *)
Inductive value : Type :=
| undefined
| str (s : string).

Global Instance value_eq_dec : EqDecision value.
Proof. solve_decision. Defined.

(** [ToString] of the language: what a template literal substitutes. *)
Definition ToString (v : value) : string :=
  match v with
  | undefined => "undefined"
  | str s => s
  end.

(** A template literal is a sequence of literal chunks and substitutions
    [${e}]; its value is the concatenation of the chunks and of the
    [ToString] of each substituted value. *)
Inductive part : Type :=
| lit (s : string)
| subst (v : value).

Fixpoint template (ps : list part) : string :=
  match ps with
  | [] => EmptyString
  | lit s :: ps' => s +:+ template ps'
  | subst v :: ps' => ToString v +:+ template ps'
  end.

(** ** Exceptions *)

Inductive exn : Type :=
| Error (msg : string).

(** How a call completes: it returns a value or it throws. *)
Inductive completion (A : Type) : Type :=
| Return (a : A)
| Throw (e : exn).

Arguments Return {A} a.
Arguments Throw {A} e.

Global Instance completion_ret : MRet completion := @Return.

Global Instance completion_bind : MBind completion :=
  fun A B (k : A -> completion B) (c : completion A) =>
    match c with
    | Return a => k a
    | Throw e => Throw e
    end.

(** ** The aws-iam and core classes the construct uses *)

Inductive Effect : Type := ALLOW | DENY.

Global Instance Effect_eq_dec : EqDecision Effect.
Proof. solve_decision. Defined.

Record IRole : Type := { roleArn : string; roleName : string }.

Global Instance IRole_eq_dec : EqDecision IRole.
Proof. solve_decision. Defined.

Record Bucket : Type := { bucketArn : string }.

(** The object literal given to [new PolicyStatement]; [conditions] is
    the one optional property the source sometimes leaves out. *)
Record PolicyStatement : Type := {
  effect : Effect;
  sid : string;
  actions : list string;
  resources : list value;
  conditions : option (gmap string (gmap string string));
}.

Global Instance PolicyStatement_eq_dec : EqDecision PolicyStatement.
Proof. solve_decision. Defined.

Module cfn_nag.
(** One entry of [rules_to_suppress]. *)
Record rule : Type := { id : string; reason : string }.

Global Instance rule_eq_dec : EqDecision rule.
Proof. solve_decision. Defined.

(** The [metadata] object: [{ cfn_nag: { rules_to_suppress: [...] } }]. *)
Record metadata : Type := { rules_to_suppress : list rule }.
End cfn_nag.

(** The CloudFormation resource of a policy; [cfnOptions.metadata] is
    [undefined] until it is assigned. *)
Record CfnPolicy : Type := {
  cfnOptions_metadata : option cfn_nag.metadata;
}.

(** A construct is named by its path in the construct tree. *)
Definition Construct : Type := list string.

(** An inline policy: its node in the tree, the roles it is attached to,
    the statements of its document and the children of its node. *)
Record Policy : Type := {
  node_path : Construct;
  roles : list IRole;
  statements : list PolicyStatement;
  children : gmap string CfnPolicy;
}.

(** [new Policy(scope, id, { roles })]: an empty document, and the
    CloudFormation resource as the child [Resource]. *)
Definition new_Policy (scope : Construct) (id : string) (rs : list IRole)
  : Policy :=
  {| node_path := scope ++ [id];
     roles := rs;
     statements := [];
     children := {[ "Resource" := {| cfnOptions_metadata := None |} ]} |}.

(** [policy.addStatements(po)] appends to the document. *)
Definition addStatements (p : Policy) (po : PolicyStatement) : Policy :=
  {| node_path := node_path p;
     roles := roles p;
     statements := statements p ++ [po];
     children := children p |}.

(** [node.findChild(id)] throws when there is no such child. *)
Definition findChild (p : Policy) (id : string) : completion CfnPolicy :=
  match children p !! id with
  | Some c => Return c
  | None => Throw (Error ("No child with id: '" +:+ id +:+ "'"))
  end.

(** [(policy.node.findChild(id) as CfnPolicy).cfnOptions.metadata = md]:
    the child is an object of the tree, the assignment changes it in
    place. *)
Definition set_metadata (p : Policy) (id : string) (md : cfn_nag.metadata)
  : completion Policy :=
  _ ← findChild p id;
  Return {| node_path := node_path p;
            roles := roles p;
            statements := statements p;
            children :=
              <[ id := {| cfnOptions_metadata := Some md |} ]> (children p) |}.

(** ** The construct *)

(** The properties. [role] and [s3Bucket] are constructs of the stack,
    objects that are there; the other properties are identifiers. *)
Record IIam : Type := {
  policyTable : value;
  logGroup : value;
  sqs : value;
  role : IRole;
  accountId : value;
  region : value;
  metricsQueue : value;
  regionParamArn : value;
  ouParamArn : value;
  tagParamArn : value;
  s3Bucket : Bucket;
}.

Section statements.
Variable props : IIam.

(** general permissions *)
Definition po0 : PolicyStatement :=
  {| effect := ALLOW;
     sid := "EC2Read0";
     actions := ["ec2:DescribeRegions"];
     resources := [str "*"];
     conditions := None |}.

(** dynamodb permissions *)
Definition po1 : PolicyStatement :=
  {| effect := ALLOW;
     sid := "DDBWrite01";
     actions := ["dynamodb:GetItem"; "dynamodb:UpdateItem"; "dynamodb:DeleteItem"];
     resources :=
       [str (template [lit "arn:aws:dynamodb:"; subst (region props); lit ":";
                       subst (accountId props); lit ":table/";
                       subst (policyTable props)])];
     conditions := None |}.

(** firewall manager put/delete policy permissions *)
Definition po2 : PolicyStatement :=
  {| effect := ALLOW;
     sid := "FMSWrite021";
     actions := ["fms:PutPolicy"; "fms:DeletePolicy"];
     resources := [str "arn:aws:fms:*:*:policy/*"];
     conditions := None |}.

(** CloudWatch logs *)
Definition po3 : PolicyStatement :=
  {| effect := ALLOW;
     sid := "CloudWatchLogsWrite03";
     actions := ["logs:CreateLogStream"; "logs:PutLogEvents"; "logs:CreateLogGroup"];
     resources := [logGroup props];
     conditions := None |}.

(** sqs permissions *)
Definition po4 : PolicyStatement :=
  {| effect := ALLOW;
     sid := "SQSWrite04";
     actions := ["sqs:SendMessage"];
     resources :=
       [sqs props;
        str (template [lit "arn:aws:sqs:"; subst (region props); lit ":";
                       subst (accountId props); lit ":";
                       subst (metricsQueue props)])];
     conditions := None |}.

(** SSM parameter *)
Definition po5 : PolicyStatement :=
  {| effect := ALLOW;
     sid := "SSMRead05";
     actions := ["ssm:GetParameter"];
     resources := [regionParamArn props; ouParamArn props; tagParamArn props];
     conditions := None |}.

(** S3 get policy manifest *)
Definition po6 : PolicyStatement :=
  {| effect := ALLOW;
     sid := "S3Read06";
     actions := ["s3:GetObject"];
     resources :=
       [str (bucketArn (s3Bucket props));
        str (template [subst (str (bucketArn (s3Bucket props))); lit "/*"])];
     conditions := None |}.

(** WAF and Shield *)
Definition po7 : PolicyStatement :=
  {| effect := ALLOW;
     sid := "WAFWrite07";
     actions := ["wafv2:*"; "shield:GetSubscriptionState"];
     resources := [str "*"];
     conditions := None |}.

(** DNS Firewall *)
Definition po8 : PolicyStatement :=
  {| effect := ALLOW;
     sid := "DNSWrite08";
     actions :=
       ["route53resolver:CreateFirewallRule";
        "route53resolver:CreateFirewallRuleGroup";
        "route53resolver:DeleteFirewallRuleGroup";
        "route53resolver:ListFirewallRules";
        "route53resolver:DeleteFirewallRule";
        "route53resolver:GetFirewallRuleGroup"];
     resources := [str "*"];
     conditions := None |}.

(** RAM *)
Definition po9 : PolicyStatement :=
  {| effect := ALLOW;
     sid := "RAMWrite09";
     actions := ["ram:DeleteResourceShare"];
     resources := [str "*"];
     conditions :=
       Some {[ "StringEquals" := {[ "aws:ResourceTag/FMManaged" := "true" ]} ]} |}.

(** DNS Firewall and RAM *)
Definition po10 : PolicyStatement :=
  {| effect := ALLOW;
     sid := "DNSRAMRead10";
     actions :=
       ["route53resolver:ListFirewallDomainLists";
        "route53resolver:ListFirewallRuleGroups";
        "ram:ListResources"];
     resources := [str "*"];
     conditions := None |}.

End statements.

(** cfn_nag suppress rules *)
Definition readPolicy_metadata : cfn_nag.metadata :=
  {| cfn_nag.rules_to_suppress :=
       [ {| cfn_nag.id := "W12";
            cfn_nag.reason :=
              "* needed for [ec2:DescribeRegions, route53resolver:ListFirewallDomainLists, route53resolver:ListFirewallRuleGroups, ram:ListResources], does no support resource level permissions" |} ] |}.

Definition writePolicy_metadata : cfn_nag.metadata :=
  {| cfn_nag.rules_to_suppress :=
       [ {| cfn_nag.id := "W12";
            cfn_nag.reason :=
              "* resource used for fms and route53resolver actions, resources are created/deleted as part of solution" |};
         {| cfn_nag.id := "F4";
            cfn_nag.reason :=
              "Read & Write permissions needed to create WAFv2 policies" |} ] |}.

(** The construct once built: its node and the two policies under it. *)
Record IAMConstruct : Type := {
  node : Construct;
  readPolicy : Policy;
  writePolicy : Policy;
}.

(** [new IAMConstruct(scope, id, props)], statement by statement. The
    two policy objects are changed in place by the source; here each
    change rebinds the name. The properties are those the interface
    declares, with a role and a bucket, and [super(scope, id)] and
    [new Policy] are taken where the scope accepts them;
    [Run.new_IAMConstruct] below is the constructor with the construct
    tree, with the refusals of the library and with properties that can
    be absent. *)
Definition new_IAMConstruct (scope : Construct) (id : string) (props : IIam)
  : completion IAMConstruct :=
  let this := scope ++ [id] in
  let readPolicy := new_Policy this "FMSPolicyRead" [role props] in
  let writePolicy := new_Policy this "FMSPolicyWrite" [role props] in
  let readPolicy := addStatements readPolicy po0 in
  let writePolicy := addStatements writePolicy (po1 props) in
  let writePolicy := addStatements writePolicy po2 in
  let writePolicy := addStatements writePolicy (po3 props) in
  let writePolicy := addStatements writePolicy (po4 props) in
  let readPolicy := addStatements readPolicy (po5 props) in
  let readPolicy := addStatements readPolicy (po6 props) in
  let writePolicy := addStatements writePolicy po7 in
  let writePolicy := addStatements writePolicy po8 in
  let writePolicy := addStatements writePolicy po9 in
  let readPolicy := addStatements readPolicy po10 in
  readPolicy ← set_metadata readPolicy "Resource" readPolicy_metadata;
  writePolicy ← set_metadata writePolicy "Resource" writePolicy_metadata;
  Return {| node := this;
            readPolicy := readPolicy;
            writePolicy := writePolicy |}.

(** ** Reading the result *)

(** The suppression rules attached to a policy: the [rules_to_suppress]
    of the metadata of its [Resource] child. *)
Definition suppressions (p : Policy) : list cfn_nag.rule :=
  match children p !! "Resource" with
  | Some {| cfnOptions_metadata := Some md |} => cfn_nag.rules_to_suppress md
  | _ => []
  end.

(** A policy document: the statements and the suppression rules. Roles
    and tree nodes are the deployment's, not the document's. *)
Definition document (p : Policy) : list PolicyStatement * list cfn_nag.rule :=
  (statements p, suppressions p).

(** The fields of a statement, side by side. *)
Definition content (s : PolicyStatement)
  : string * Effect * list string * list value
    * option (gmap string (gmap string string)) :=
  (sid s, effect s, actions s, resources s, conditions s).

(** The statement of a document that carries a given sid. *)
Definition statement_with_sid (x : string) (p : Policy) : option PolicyStatement :=
  head (filter (fun s => sid s = x) (statements p)).

(** The eleven statements in the order the constructor builds them. *)
Definition grants (props : IIam) : list PolicyStatement :=
  [po0; po1 props; po2; po3 props; po4 props; po5 props; po6 props;
   po7; po8; po9; po10].

(** The identifier values of the properties, [role] left out. *)
Definition identifiers (props : IIam) : list value :=
  [policyTable props; logGroup props; sqs props; accountId props;
   region props; metricsQueue props; regionParamArn props;
   ouParamArn props; tagParamArn props; str (bucketArn (s3Bucket props))].

(** The unscoped wildcard among the resources of a statement. *)
Definition has_wildcard (s : PolicyStatement) : Prop := str "*" ∈ resources s.

Global Instance has_wildcard_dec s : Decision (has_wildcard s).
Proof. unfold has_wildcard. apply _. Defined.

Definition wildcard_statements (p : Policy) : list PolicyStatement :=
  filter has_wildcard (statements p).

(** An action that names every verb of a service, as [wafv2:*]. *)
Definition ends_with (suffix s : string) : bool :=
  String.eqb
    (String.substring (String.length s - String.length suffix) (String.length suffix) s)
    suffix.

Definition wildcard_action (a : string) : bool := ends_with ":*" a.

(** ** The shape of a sid

    The sids of the source are literals such as [DDBWrite01]: a tag, the
    word [Read] or [Write], and decimal digits. *)

Inductive AccessClass : Type := READ | WRITE.

Global Instance AccessClass_eq_dec : EqDecision AccessClass.
Proof. solve_decision. Defined.

Definition class_word (cls : AccessClass) : string :=
  match cls with
  | READ => "Read"
  | WRITE => "Write"
  end.

Definition other (cls : AccessClass) : AccessClass :=
  match cls with
  | READ => WRITE
  | WRITE => READ
  end.

Definition policy (c : IAMConstruct) (cls : AccessClass) : Policy :=
  match cls with
  | READ => readPolicy c
  | WRITE => writePolicy c
  end.

Definition is_digit (c : Ascii.ascii) : bool :=
  (48 <=? Ascii.nat_of_ascii c)%nat && (Ascii.nat_of_ascii c <=? 57)%nat.

Fixpoint all_digits (s : string) : bool :=
  match s with
  | EmptyString => true
  | String c s' => is_digit c && all_digits s'
  end.

(** The longest suffix made of digits. *)
Fixpoint trailing_digits (s : string) : string :=
  match s with
  | EmptyString => EmptyString
  | String c s' => if all_digits s then s else trailing_digits s'
  end.

Fixpoint number_from (n : nat) (s : string) : nat :=
  match s with
  | EmptyString => n
  | String c s' => number_from (10 * n + (Ascii.nat_of_ascii c - 48)) s'
  end.

Definition sid_digits (x : string) : string := trailing_digits x.

Definition sid_number (x : string) : nat := number_from 0 (sid_digits x).

Definition sid_stem (x : string) : string :=
  String.substring 0 (String.length x - String.length (sid_digits x)) x.

Definition sid_class (x : string) : option AccessClass :=
  if ends_with "Write" (sid_stem x) then Some WRITE
  else if ends_with "Read" (sid_stem x) then Some READ
  else None.

Definition sid_tag (x : string) : string :=
  match sid_class x with
  | Some cls =>
      String.substring 0
        (String.length (sid_stem x) - String.length (class_word cls))
        (sid_stem x)
  | None => sid_stem x
  end.

Definition two_digits (n : nat) : string :=
  String (Ascii.ascii_of_nat (48 + n / 10))
    (String (Ascii.ascii_of_nat (48 + n mod 10)) EmptyString).

(** The numbering rule of the design document: tag, access class and a
    two-digit index, as in [DDBWrite01]. *)
Definition derive_sid (tag : string) (cls : AccessClass) (index : nat) : string :=
  tag +:+ class_word cls +:+ two_digits index.

(** ** Sample properties *)

Definition lambda_role : IRole :=
  {| roleArn := "arn:aws:iam::111122223333:role/FMSLambdaRole";
     roleName := "FMSLambdaRole" |}.

Definition other_role : IRole :=
  {| roleArn := "arn:aws:iam::111122223333:role/Auditor";
     roleName := "Auditor" |}.

Definition manifest_bucket : Bucket :=
  {| bucketArn := "arn:aws:s3:::fms-policy-manifest" |}.

Definition example_props : IIam :=
  {| policyTable := str "FMS-Policy-Table";
     logGroup := str "arn:aws:logs:us-east-1:111122223333:log-group:FMS-Logs";
     sqs := str "arn:aws:sqs:us-east-1:111122223333:FMS-DLQ";
     role := lambda_role;
     accountId := str "111122223333";
     region := str "us-east-1";
     metricsQueue := str "FMS-Metrics";
     regionParamArn := str "arn:aws:ssm:us-east-1:111122223333:parameter/FMS/Regions";
     ouParamArn := str "arn:aws:ssm:us-east-1:111122223333:parameter/FMS/OUs";
     tagParamArn := str "arn:aws:ssm:us-east-1:111122223333:parameter/FMS/Tags";
     s3Bucket := manifest_bucket |}.

(** The same identifiers handed over with another role. *)
Definition example_props_other_role : IIam :=
  {| policyTable := policyTable example_props;
     logGroup := logGroup example_props;
     sqs := sqs example_props;
     role := other_role;
     accountId := accountId example_props;
     region := region example_props;
     metricsQueue := metricsQueue example_props;
     regionParamArn := regionParamArn example_props;
     ouParamArn := ouParamArn example_props;
     tagParamArn := tagParamArn example_props;
     s3Bucket := s3Bucket example_props |}.


(** The caller left [policyTable] out. *)
Definition props_without_policyTable : IIam :=
  {| policyTable := undefined;
     logGroup := logGroup example_props;
     sqs := sqs example_props;
     role := lambda_role;
     accountId := accountId example_props;
     region := region example_props;
     metricsQueue := metricsQueue example_props;
     regionParamArn := regionParamArn example_props;
     ouParamArn := ouParamArn example_props;
     tagParamArn := tagParamArn example_props;
     s3Bucket := manifest_bucket |}.

(** The caller gave the role and the bucket and no identifier at all. *)
Definition props_without_identifiers : IIam :=
  {| policyTable := undefined;
     logGroup := undefined;
     sqs := undefined;
     role := lambda_role;
     accountId := undefined;
     region := undefined;
     metricsQueue := undefined;
     regionParamArn := undefined;
     ouParamArn := undefined;
     tagParamArn := undefined;
     s3Bucket := manifest_bucket |}.

(** ** The laws of the design document, as it words them

    Stated over what the constructor returns, to be compared with what
    it does. *)

(** Wildcard and justification, for one policy. A grant is named by its
    sid; its justification and the rule id of its suppression belong to
    the grant, not to the identifiers. A statement has [*] among its
    resources exactly when its grant has a justification, and the
    suppression rules are the justifications of the statements with [*],
    each under its rule id, one rule per such statement, equal rules
    kept once. *)
Definition justified
    (rule_id justification : string -> string) (p : Policy) : Prop :=
  (forall s,
     s ∈ statements p ->
     has_wildcard s <-> justification (sid s) <> EmptyString)
  /\ NoDup (suppressions p)
  /\ (forall r,
        r ∈ suppressions p <->
        exists s,
          s ∈ wildcard_statements p
          /\ r = {| cfn_nag.id := rule_id (sid s);
                    cfn_nag.reason := justification (sid s) |}).




(** An identifier the caller did not supply. *)
Definition unresolved (props : IIam) : Prop := undefined ∈ identifiers props.

(** Fail closed: with an unresolved identifier, no document. *)
Definition fails_closed_at
    (scope : Construct) (id : string) (props : IIam) : Prop :=
  unresolved props ->
  ~ exists c, new_IAMConstruct scope id props = Return c.


(** Sequential numbering inside a document: the statement at position
    [k] carries the number [first + k], whatever the tag and however
    the number is padded. *)
Definition numbered_in_sequence (l : list PolicyStatement) : Prop :=
  exists first,
    forall k s, l !! k = Some s -> sid_number (sid s) = first + k.

(** The same with one sequence for each tag: the statement at position
    [k] is numbered by how many statements with its tag come before it
    in the document. *)
Definition index_in_group (l : list PolicyStatement) (k : nat) (s : PolicyStatement)
  : nat :=
  length (filter (fun t => sid_tag (sid t) = sid_tag (sid s)) (take k l)).

Definition numbered_in_groups (l : list PolicyStatement) : Prop :=
  exists first,
    forall k s,
      l !! k = Some s -> sid_number (sid s) = first + index_in_group l k s.

Definition numbered_in_sequence_at
    (scope : Construct) (id : string) (props : IIam) : Prop :=
  forall c,
    new_IAMConstruct scope id props = Return c ->
    forall cls,
      numbered_in_sequence (statements (policy c cls))
      \/ numbered_in_groups (statements (policy c cls)).

(** ** Which identifier reaches which document

    Read off the statements: [po5] and [po6], of the read policy, use the
    three parameter ARNs and the bucket; [po1], [po3] and [po4], of the
    write policy, use the other six identifiers. Five identifiers are
    passed as they are, four are substituted in template literals. *)

Definition read_identifiers (props : IIam) : list value :=
  [regionParamArn props; ouParamArn props; tagParamArn props;
   str (bucketArn (s3Bucket props))].

Definition write_identifiers (props : IIam) : list value :=
  [policyTable props; logGroup props; sqs props; accountId props;
   region props; metricsQueue props].

Definition direct_identifiers (props : IIam) : list value :=
  [logGroup props; sqs props; regionParamArn props; ouParamArn props;
   tagParamArn props].

Definition templated_identifiers (props : IIam) : list value :=
  [region props; accountId props; policyTable props; metricsQueue props].

(** What the write policy can see of its identifiers: the two passed as
    they are, and the text of the four substituted ones. *)
Definition write_texts (props : IIam) : list value * list string :=
  ([logGroup props; sqs props], ToString <$> templated_identifiers props).

(** The properties with other values for [region] and [accountId]. *)
Definition with_region_account (r a : value) (props : IIam) : IIam :=
  {| policyTable := policyTable props;
     logGroup := logGroup props;
     sqs := sqs props;
     role := role props;
     accountId := a;
     region := r;
     metricsQueue := metricsQueue props;
     regionParamArn := regionParamArn props;
     ouParamArn := ouParamArn props;
     tagParamArn := tagParamArn props;
     s3Bucket := s3Bucket props |}.

(** The table is called [undefined]. *)
Definition props_policyTable_undefined_text : IIam :=
  {| policyTable := str "undefined";
     logGroup := logGroup example_props;
     sqs := sqs example_props;
     role := lambda_role;
     accountId := accountId example_props;
     region := region example_props;
     metricsQueue := metricsQueue example_props;
     regionParamArn := regionParamArn example_props;
     ouParamArn := ouParamArn example_props;
     tagParamArn := tagParamArn example_props;
     s3Bucket := manifest_bucket |}.

(** ** The shape of an action and of a sid *)

(** The character [:], code 58. *)
Definition colon : Ascii.ascii := Ascii.ascii_of_nat 58.

(** An action is [service:verb]: the text before the first colon and
    the text after it. *)
Fixpoint before_colon (a : string) : string :=
  match a with
  | EmptyString => EmptyString
  | String c a' =>
      if Ascii.eqb c colon then EmptyString else String c (before_colon a')
  end.

Fixpoint after_colon (a : string) : option string :=
  match a with
  | EmptyString => None
  | String c a' => if Ascii.eqb c colon then Some a' else after_colon a'
  end.

Definition no_colon (s : string) : Prop := after_colon s = None.

Global Instance no_colon_dec s : Decision (no_colon s).
Proof. unfold no_colon. apply _. Defined.

Definition action_service (a : string) : string := before_colon a.

Definition action_verb (a : string) : string := default EmptyString (after_colon a).

(** One colon, with a service before it and a verb after it. *)
Definition well_formed_action (a : string) : Prop :=
  exists verb,
    after_colon a = Some verb
    /\ action_service a <> EmptyString
    /\ verb <> EmptyString
    /\ no_colon verb.

(** The verbs that only read: [Describe...], [Get...], [List...]. *)
Definition read_only_verb (verb : string) : bool :=
  String.prefix "Describe" verb || String.prefix "Get" verb
  || String.prefix "List" verb.

Definition read_only_action (a : string) : Prop :=
  read_only_verb (action_verb a) = true.

Global Instance read_only_action_dec a : Decision (read_only_action a).
Proof. unfold read_only_action. apply _. Defined.

Definition is_letter (c : Ascii.ascii) : bool :=
  ((65 <=? Ascii.nat_of_ascii c)%nat && (Ascii.nat_of_ascii c <=? 90)%nat)
  || ((97 <=? Ascii.nat_of_ascii c)%nat && (Ascii.nat_of_ascii c <=? 122)%nat).

(** Letters and digits only, as IAM asks of a sid. *)
Fixpoint alphanumeric (s : string) : bool :=
  match s with
  | EmptyString => true
  | String c s' => (is_letter c || is_digit c) && alphanumeric s'
  end.

(** A statement fit for a policy document. *)
Definition well_formed (s : PolicyStatement) : Prop :=
  actions s <> []
  /\ resources s <> []
  /\ sid s <> EmptyString
  /\ alphanumeric (sid s) = true
  /\ Forall well_formed_action (actions s).

(** All the actions a construct grants, document after document. *)
Definition granted_actions (c : IAMConstruct) : list string :=
  concat (actions <$> (statements (readPolicy c) ++ statements (writePolicy c))).

(** The texts of a list with a separator between them, as [join] of an
    array. *)
Fixpoint join_with (sep : string) (l : list string) : string :=
  match l with
  | [] => EmptyString
  | [x] => x
  | x :: l' => x +:+ sep +:+ join_with sep l'
  end.

(** * The constructor as it runs

    [new_IAMConstruct] above is the constructor where nothing throws:
    the scope takes the construct, and the role and the bucket are
    there. What follows is the constructor with its throws and with the
    construct tree it writes to: the scope keeps the construct
    ([super(scope, id)]) and the policies, whose statements are added in
    place; a name can be taken, the scope can stand outside a stack, and
    the objects [role] and [s3Bucket] of the properties can be absent
    like any other property. *)

Module Run.

(** ** Exceptions *)

(** Why the construct library refuses. *)
Inductive refusal : Type :=
| empty_name                 (* only a root construct may have no name *)
| name_in_use (name : string) (* the scope has a construct of that name *)
| no_stack (path : Construct) (* a resource outside the scope of a stack *)
| no_child (message : string). (* findChild without such a child *)

Inductive exception : Type :=
| an_Error (why : refusal)
| a_TypeError (property : string). (* [property] read of undefined *)

(** ** The construct tree *)

(** What stands at a path of the tree. *)
Inductive entry : Type :=
| a_Stack
| a_Construct
| a_Policy (p : Policy).

Definition is_Stack (n : option entry) : bool :=
  match n with
  | Some a_Stack => true
  | _ => false
  end.

(** [stack_above t above below]: a stack stands at [above] or at a path
    between [above] and [above ++ below]. *)
Fixpoint stack_above (t : gmap Construct entry) (above below : Construct) : bool :=
  is_Stack (t !! above)
  || match below with
     | [] => false
     | x :: below' => stack_above t (above ++ [x]) below'
     end.

(** The construct at [path] stands in the scope of a stack. *)
Definition under_Stack (t : gmap Construct entry) (path : Construct) : bool :=
  stack_above t [] path.

(** No construct at [path] nor under it. *)
Definition unused (t : gmap Construct entry) (path : Construct) : Prop :=
  forall below, t !! (path ++ below) = None.

(** ** Running: a result, or an exception, and the tree as it is left *)

Inductive result (A : Type) : Type :=
| returned (a : A)
| threw (e : exception).

Arguments returned {A} a.
Arguments threw {A} e.

Definition run (A : Type) : Type :=
  gmap Construct entry -> result A * gmap Construct entry.

Global Instance run_ret : MRet run := fun A a t => (returned a, t).

Global Instance run_bind : MBind run :=
  fun A B (k : A -> run B) (m : run A) t =>
    match m t with
    | (returned a, t') => k a t'
    | (threw e, t') => (threw e, t')
    end.

Definition throw {A : Type} (e : exception) : run A := fun t => (threw e, t).

(** A call that completes outside the tree. *)
Definition lift {A : Type} (c : completion A) : run A :=
  match c with
  | Return a => mret a
  | Throw (Error message) => throw (an_Error (no_child message))
  end.

(** ** The construct library *)

(** A construct takes its place under its scope: the name must not be
    empty nor in use. *)
Definition addChild (scope : Construct) (id : string) (n : entry) : run Construct :=
  fun t =>
    if decide (id = EmptyString) then (threw (an_Error empty_name), t)
    else if decide (is_Some (t !! (scope ++ [id])))
         then (threw (an_Error (name_in_use id)), t)
         else (returned (scope ++ [id]), <[ scope ++ [id] := n ]> t).

(** [Stack.of]: a resource must stand in the scope of a stack. *)
Definition Stack_of (path : Construct) : run unit :=
  fun t =>
    if under_Stack t path then (returned tt, t)
    else (threw (an_Error (no_stack path)), t).

(** The policy object is in the tree: a change of it is a change there. *)
Definition store (p : Policy) : run Policy :=
  fun t => (returned p, <[ node_path p := a_Policy p ]> t).

(** [policy.attachToRole(role)], role after role: a role already there
    is not added again, an absent role has no [attachInlinePolicy]. *)
Definition attachToRole (p : Policy) (r : IRole) : Policy :=
  if decide (r ∈ roles p) then p
  else {| node_path := node_path p;
          roles := roles p ++ [r];
          statements := statements p;
          children := children p |}.

Fixpoint attachToRoles (p : Policy) (rs : list (option IRole)) : run Policy :=
  match rs with
  | [] => mret p
  | None :: _ => throw (a_TypeError "attachInlinePolicy")
  | Some r :: rs' => p' ← store (attachToRole p r); attachToRoles p' rs'
  end.

(** [new Policy(scope, id, { roles })]: the node, the stack, the
    CloudFormation resource as the child [Resource], the roles. *)
Definition new_Policy (scope : Construct) (id : string) (rs : list (option IRole))
  : run Policy :=
  path ← addChild scope id
           (a_Policy {| node_path := scope ++ [id]; roles := [];
                        statements := []; children := ∅ |});
  _ ← Stack_of path;
  p ← store {| node_path := path; roles := []; statements := [];
               children := {[ "Resource" := {| cfnOptions_metadata := None |} ]} |};
  attachToRoles p rs.

(** ** The properties *)

Record Bucket : Type := { bucketArn : value }.

(** The object handed to the constructor, as it is there when the
    program runs: each property can be absent. *)
Record IIam : Type := {
  policyTable : value;
  logGroup : value;
  sqs : value;
  role : option IRole;
  accountId : value;
  region : value;
  metricsQueue : value;
  regionParamArn : value;
  ouParamArn : value;
  tagParamArn : value;
  s3Bucket : option Bucket;
}.

(** [props.s3Bucket.bucketArn] *)
Definition s3Bucket_bucketArn (props : IIam) : run value :=
  match s3Bucket props with
  | Some b => mret (bucketArn b)
  | None => throw (a_TypeError "bucketArn")
  end.

(** ** The statements *)

Section statements.
Variable props : IIam.

Definition po0 : PolicyStatement :=
  {| effect := ALLOW;
     sid := "EC2Read0";
     actions := ["ec2:DescribeRegions"];
     resources := [str "*"];
     conditions := None |}.

Definition po1 : PolicyStatement :=
  {| effect := ALLOW;
     sid := "DDBWrite01";
     actions := ["dynamodb:GetItem"; "dynamodb:UpdateItem"; "dynamodb:DeleteItem"];
     resources :=
       [str (template [lit "arn:aws:dynamodb:"; subst (region props); lit ":";
                       subst (accountId props); lit ":table/";
                       subst (policyTable props)])];
     conditions := None |}.

Definition po2 : PolicyStatement :=
  {| effect := ALLOW;
     sid := "FMSWrite021";
     actions := ["fms:PutPolicy"; "fms:DeletePolicy"];
     resources := [str "arn:aws:fms:*:*:policy/*"];
     conditions := None |}.

Definition po3 : PolicyStatement :=
  {| effect := ALLOW;
     sid := "CloudWatchLogsWrite03";
     actions := ["logs:CreateLogStream"; "logs:PutLogEvents"; "logs:CreateLogGroup"];
     resources := [logGroup props];
     conditions := None |}.

Definition po4 : PolicyStatement :=
  {| effect := ALLOW;
     sid := "SQSWrite04";
     actions := ["sqs:SendMessage"];
     resources :=
       [sqs props;
        str (template [lit "arn:aws:sqs:"; subst (region props); lit ":";
                       subst (accountId props); lit ":";
                       subst (metricsQueue props)])];
     conditions := None |}.

Definition po5 : PolicyStatement :=
  {| effect := ALLOW;
     sid := "SSMRead05";
     actions := ["ssm:GetParameter"];
     resources := [regionParamArn props; ouParamArn props; tagParamArn props];
     conditions := None |}.

(** [bucketArn] is what [props.s3Bucket.bucketArn] gave. *)
Definition po6 (bucketArn : value) : PolicyStatement :=
  {| effect := ALLOW;
     sid := "S3Read06";
     actions := ["s3:GetObject"];
     resources := [bucketArn; str (template [subst bucketArn; lit "/*"])];
     conditions := None |}.

Definition po7 : PolicyStatement :=
  {| effect := ALLOW;
     sid := "WAFWrite07";
     actions := ["wafv2:*"; "shield:GetSubscriptionState"];
     resources := [str "*"];
     conditions := None |}.

Definition po8 : PolicyStatement :=
  {| effect := ALLOW;
     sid := "DNSWrite08";
     actions :=
       ["route53resolver:CreateFirewallRule";
        "route53resolver:CreateFirewallRuleGroup";
        "route53resolver:DeleteFirewallRuleGroup";
        "route53resolver:ListFirewallRules";
        "route53resolver:DeleteFirewallRule";
        "route53resolver:GetFirewallRuleGroup"];
     resources := [str "*"];
     conditions := None |}.

Definition po9 : PolicyStatement :=
  {| effect := ALLOW;
     sid := "RAMWrite09";
     actions := ["ram:DeleteResourceShare"];
     resources := [str "*"];
     conditions :=
       Some {[ "StringEquals" := {[ "aws:ResourceTag/FMManaged" := "true" ]} ]} |}.

Definition po10 : PolicyStatement :=
  {| effect := ALLOW;
     sid := "DNSRAMRead10";
     actions :=
       ["route53resolver:ListFirewallDomainLists";
        "route53resolver:ListFirewallRuleGroups";
        "ram:ListResources"];
     resources := [str "*"];
     conditions := None |}.

End statements.

(** ** The constructor *)

Definition new_IAMConstruct (scope : Construct) (id : string) (props : IIam)
  : run IAMConstruct :=
  this ← addChild scope id a_Construct;
  readPolicy ← new_Policy this "FMSPolicyRead" [role props];
  writePolicy ← new_Policy this "FMSPolicyWrite" [role props];
  readPolicy ← store (addStatements readPolicy po0);
  writePolicy ← store (addStatements writePolicy (po1 props));
  writePolicy ← store (addStatements writePolicy po2);
  writePolicy ← store (addStatements writePolicy (po3 props));
  writePolicy ← store (addStatements writePolicy (po4 props));
  readPolicy ← store (addStatements readPolicy (po5 props));
  bucketArn ← s3Bucket_bucketArn props;
  readPolicy ← store (addStatements readPolicy (po6 bucketArn));
  writePolicy ← store (addStatements writePolicy po7);
  writePolicy ← store (addStatements writePolicy po8);
  writePolicy ← store (addStatements writePolicy po9);
  readPolicy ← store (addStatements readPolicy po10);
  readPolicy ← lift (set_metadata readPolicy "Resource" readPolicy_metadata);
  readPolicy ← store readPolicy;
  writePolicy ← lift (set_metadata writePolicy "Resource" writePolicy_metadata);
  writePolicy ← store writePolicy;
  mret {| node := this;
          readPolicy := readPolicy;
          writePolicy := writePolicy |}.

End Run.

(** The properties of the interface, as an object at run time. *)
Definition at_run_time (props : IIam) : Run.IIam :=
  {| Run.policyTable := policyTable props;
     Run.logGroup := logGroup props;
     Run.sqs := sqs props;
     Run.role := Some (role props);
     Run.accountId := accountId props;
     Run.region := region props;
     Run.metricsQueue := metricsQueue props;
     Run.regionParamArn := regionParamArn props;
     Run.ouParamArn := ouParamArn props;
     Run.tagParamArn := tagParamArn props;
     Run.s3Bucket := Some {| Run.bucketArn := str (bucketArn (s3Bucket props)) |} |}.

(** A tree with one stack, and the sample properties at run time. *)
Definition sample_tree : gmap Construct Run.entry :=
  {[ ["FMSStack"] := Run.a_Stack ]}.

Definition props_without_bucket : Run.IIam :=
  {| Run.policyTable := policyTable example_props;
     Run.logGroup := logGroup example_props;
     Run.sqs := sqs example_props;
     Run.role := Some lambda_role;
     Run.accountId := accountId example_props;
     Run.region := region example_props;
     Run.metricsQueue := metricsQueue example_props;
     Run.regionParamArn := regionParamArn example_props;
     Run.ouParamArn := ouParamArn example_props;
     Run.tagParamArn := tagParamArn example_props;
     Run.s3Bucket := None |}.

(** The tree once a construct stands in it at [this] with its two
    policies. *)
Definition planted (t : gmap Construct Run.entry) (this : Construct)
    (r w : Policy) : gmap Construct Run.entry :=
  <[ node_path w := Run.a_Policy w ]>
    (<[ node_path r := Run.a_Policy r ]> (<[ this := Run.a_Construct ]> t)).

(** A policy after [addStatements] of each statement of a list. *)
Definition with_statements (p : Policy) (l : list PolicyStatement) : Policy :=
  foldl addStatements p l.

(** A place that takes the construct and its policies: the name is not
    empty and not in use, the scope stands under a stack, and the role
    is there. *)
Definition admitted (t : gmap Construct Run.entry) (scope : Construct)
    (id : string) (props : Run.IIam) : Prop :=
  id <> EmptyString
  /\ Run.unused t (scope ++ [id])
  /\ Run.under_Stack t scope = true
  /\ is_Some (Run.role props).

(** The identifier values of the properties at run time: the nine
    identifiers and what [props.s3Bucket.bucketArn] reads. *)
Definition run_identifiers (props : Run.IIam) : list value * option value :=
  ([Run.policyTable props; Run.logGroup props; Run.sqs props;
    Run.accountId props; Run.region props; Run.metricsQueue props;
    Run.regionParamArn props; Run.ouParamArn props; Run.tagParamArn props],
   Run.bucketArn <$> Run.s3Bucket props).

(** The six values that are passed to a statement as they are. *)
Definition direct_values (props : Run.IIam) (b : Run.Bucket) : list value :=
  [Run.logGroup props; Run.sqs props; Run.regionParamArn props;
   Run.ouParamArn props; Run.tagParamArn props; Run.bucketArn b].

(** A resource that is a text. *)
Definition is_text (v : value) : Prop := exists x, v = str x.

(** Statelessness as the design document words it: a construction that
    returned can be done again with the same inputs, and returns the
    same documents. *)
Definition stateless_at (t : gmap Construct Run.entry) (scope : Construct)
    (id : string) (props : Run.IIam) : Prop :=
  forall c t',
    Run.new_IAMConstruct scope id props t = (Run.returned c, t') ->
    exists c' t'',
      Run.new_IAMConstruct scope id props t' = (Run.returned c', t'')
      /\ forall cls, document (policy c cls) = document (policy c' cls).

(** Sample properties at run time: no identifier at all, a bucket
    without ARN. *)
Definition props_without_values : Run.IIam :=
  {| Run.policyTable := undefined;
     Run.logGroup := undefined;
     Run.sqs := undefined;
     Run.role := Some lambda_role;
     Run.accountId := undefined;
     Run.region := undefined;
     Run.metricsQueue := undefined;
     Run.regionParamArn := undefined;
     Run.ouParamArn := undefined;
     Run.tagParamArn := undefined;
     Run.s3Bucket := Some {| Run.bucketArn := undefined |} |}.

(** * Properties *)

(** Membership in a list that is written out. *)
Ltac in_list :=
  by repeat first [apply list_elem_of_here | apply list_elem_of_further].

(** ** What the constructor returns *)

Lemma findChild_new_Policy scope id rs :
  findChild (new_Policy scope id rs) "Resource"
  = Return {| cfnOptions_metadata := None |}.
Proof. unfold findChild, new_Policy. simpl. by rewrite lookup_singleton_eq. Qed.

Lemma findChild_addStatements p po id :
  findChild (addStatements p po) id = findChild p id.
Proof. reflexivity. Qed.

Lemma set_metadata_returns p id c md :
  findChild p id = Return c ->
  exists p',
    set_metadata p id md = Return p'
    /\ node_path p' = node_path p
    /\ roles p' = roles p
    /\ statements p' = statements p
    /\ suppressions p' = if decide (id = "Resource")
                         then cfn_nag.rules_to_suppress md
                         else suppressions p.
Proof.
  intros Hc. unfold set_metadata. rewrite Hc. simpl.
  eexists. split; [reflexivity|]. repeat split.
  unfold suppressions. simpl. case_decide as Hid.
  - subst id. by rewrite lookup_insert_eq.
  - by rewrite lookup_insert_ne.
Qed.

(** The constructor always returns, with four statements in the read
    policy, seven in the write policy, and the two lists of suppression
    rules. *)
Lemma new_IAMConstruct_returns scope id props :
  exists c,
    new_IAMConstruct scope id props = Return c
    /\ node c = scope ++ [id]
    /\ node_path (readPolicy c) = (scope ++ [id]) ++ ["FMSPolicyRead"]
    /\ node_path (writePolicy c) = (scope ++ [id]) ++ ["FMSPolicyWrite"]
    /\ roles (readPolicy c) = [role props]
    /\ roles (writePolicy c) = [role props]
    /\ statements (readPolicy c) = [po0; po5 props; po6 props; po10]
    /\ statements (writePolicy c)
       = [po1 props; po2; po3 props; po4 props; po7; po8; po9]
    /\ suppressions (readPolicy c)
       = cfn_nag.rules_to_suppress readPolicy_metadata
    /\ suppressions (writePolicy c)
       = cfn_nag.rules_to_suppress writePolicy_metadata.
Proof.
  unfold new_IAMConstruct.
  set (this := scope ++ [id]).
  set (r := addStatements _ po10).
  set (w := addStatements _ po9).
  destruct (set_metadata_returns r "Resource" _ readPolicy_metadata
              (findChild_new_Policy this "FMSPolicyRead" [role props]))
    as (r' & -> & Hrn & Hrr & Hrs & Hrm).
  destruct (set_metadata_returns w "Resource" _ writePolicy_metadata
              (findChild_new_Policy this "FMSPolicyWrite" [role props]))
    as (w' & Hw & Hwn & Hwr & Hws & Hwm).
  simpl. rewrite Hw. simpl.
  eexists. split; [reflexivity|]. simpl.
  rewrite Hrn, Hwn, Hrr, Hwr, Hrs, Hws, Hrm, Hwm.
  repeat split.
Qed.

(** [built scope id props as c Hc Hr Hw Hsr Hsw]: the construct [c]
    returned for [props], with its statements and suppression rules. *)
Tactic Notation "built" constr(scope) constr(id) constr(props) "as"
    simple_intropattern(c) simple_intropattern(Hc)
    simple_intropattern(Hr) simple_intropattern(Hw)
    simple_intropattern(Hsr) simple_intropattern(Hsw) :=
  destruct (new_IAMConstruct_returns scope id props)
    as (c & Hc & _ & _ & _ & _ & _ & Hr & Hw & Hsr & Hsw).

(** ** The definitions at work *)

Example po1_resource :
  resources (po1 example_props)
  = [str "arn:aws:dynamodb:us-east-1:111122223333:table/FMS-Policy-Table"].
Proof. reflexivity. Qed.

Example po1_resource_without_policyTable :
  resources (po1 props_without_policyTable)
  = [str "arn:aws:dynamodb:us-east-1:111122223333:table/undefined"].
Proof. reflexivity. Qed.

Example po3_resource_without_identifiers :
  resources (po3 props_without_identifiers) = [undefined].
Proof. reflexivity. Qed.

Example po6_resources :
  resources (po6 example_props)
  = [str "arn:aws:s3:::fms-policy-manifest";
     str "arn:aws:s3:::fms-policy-manifest/*"].
Proof. reflexivity. Qed.

Example sid_parts_DDBWrite01 :
  (sid_tag "DDBWrite01", sid_class "DDBWrite01", sid_digits "DDBWrite01",
   sid_number "DDBWrite01")
  = ("DDB", Some WRITE, "01", 1).
Proof. reflexivity. Qed.

Example sid_parts_S3Read06 :
  (sid_tag "S3Read06", sid_class "S3Read06", sid_digits "S3Read06",
   sid_number "S3Read06")
  = ("S3", Some READ, "06", 6).
Proof. reflexivity. Qed.

Example sid_parts_FMSWrite021 :
  (sid_tag "FMSWrite021", sid_class "FMSWrite021", sid_digits "FMSWrite021",
   sid_number "FMSWrite021")
  = ("FMS", Some WRITE, "021", 21).
Proof. reflexivity. Qed.

Example derive_sid_DDBWrite01 : derive_sid "DDB" WRITE 1 = "DDBWrite01".
Proof. reflexivity. Qed.

(** ** Texts *)

Lemma append_empty_r (s : string) : s +:+ EmptyString = s.
Proof.
  induction s as [|a s IH]; [done|].
  change (String a (s +:+ EmptyString) = String a s). by f_equal.
Qed.

(** ** Lists without repetition *)

Section list_facts.
Context {A : Type} `{EqDecision A}.

Lemma filter_eq_not_elem (x : A) (l : list A) :
  x ∉ l -> filter (x =.) l = [].
Proof.
  induction l as [|y l IH]; [done|].
  intros [Hxy Hx]%not_elem_of_cons.
  rewrite filter_cons_False; auto.
Qed.

Lemma filter_eq_NoDup (x : A) (l : list A) :
  NoDup l -> x ∈ l -> length (filter (x =.) l) = 1.
Proof.
  induction 1 as [|y l Hy Hl IH]; intros Hx.
  - by apply elem_of_nil in Hx.
  - rewrite filter_cons. case_decide as Hxy.
    + subst y. simpl. by rewrite filter_eq_not_elem.
    + apply elem_of_cons in Hx as [->|Hx]; [done|]. by apply IH.
Qed.

Lemma not_elem_of_by_key {B : Type} (f : A -> B) x (l : list A) :
  f x ∉ f <$> l -> x ∉ l.
Proof. intros Hn Hx. apply Hn. by apply list_elem_of_fmap_2. Qed.

End list_facts.

(** The sids of the two documents, whatever the properties. *)
Lemma sids_read props :
  sid <$> [po0; po5 props; po6 props; po10]
  = ["EC2Read0"; "SSMRead05"; "S3Read06"; "DNSRAMRead10"].
Proof. reflexivity. Qed.

Lemma sids_write props :
  sid <$> [po1 props; po2; po3 props; po4 props; po7; po8; po9]
  = ["DDBWrite01"; "FMSWrite021"; "CloudWatchLogsWrite03"; "SQSWrite04";
     "WAFWrite07"; "DNSWrite08"; "RAMWrite09"].
Proof. reflexivity. Qed.

Lemma NoDup_sids_read : NoDup ["EC2Read0"; "SSMRead05"; "S3Read06"; "DNSRAMRead10"].
Proof. by apply (bool_decide_unpack _). Qed.

Lemma NoDup_sids_write :
  NoDup ["DDBWrite01"; "FMSWrite021"; "CloudWatchLogsWrite03"; "SQSWrite04";
         "WAFWrite07"; "DNSWrite08"; "RAMWrite09"].
Proof. by apply (bool_decide_unpack _). Qed.

(** ** Sid uniqueness *)

(** C4. For every scope, id and properties the constructor returns, and
    in each of the two policy documents it builds no two statements
    carry the same sid. *)
Theorem sid_unique scope id props :
  exists c,
    new_IAMConstruct scope id props = Return c
    /\ forall cls, NoDup (sid <$> statements (policy c cls)).
Proof.
  built scope id props as c Hc Hr Hw _ _.
  exists c. split; [done|]. intros [|]; simpl.
  - rewrite Hr, sids_read. apply NoDup_sids_read.
  - rewrite Hw, sids_write. apply NoDup_sids_write.
Qed.

(** ** Partition of the statements between the two documents *)

Lemma sids_grants props :
  sid <$> grants props
  = ["EC2Read0"; "DDBWrite01"; "FMSWrite021"; "CloudWatchLogsWrite03";
     "SQSWrite04"; "SSMRead05"; "S3Read06"; "WAFWrite07"; "DNSWrite08";
     "RAMWrite09"; "DNSRAMRead10"].
Proof. reflexivity. Qed.

Lemma NoDup_grants props : NoDup (grants props).
Proof.
  apply (NoDup_fmap_1 sid). rewrite sids_grants.
  by apply (bool_decide_unpack _).
Qed.

Lemma grants_class props g :
  g ∈ grants props -> is_Some (sid_class (sid g)).
Proof.
  intros Hg%(list_elem_of_fmap_2 sid). rewrite sids_grants in Hg.
  repeat (apply elem_of_cons in Hg as [->|Hg]; [by vm_compute; eauto|]).
  by apply elem_of_nil in Hg.
Qed.

Lemma statements_by_class scope id props c :
  new_IAMConstruct scope id props = Return c ->
  forall cls,
    statements (policy c cls)
    = filter (fun g => sid_class (sid g) = Some cls) (grants props).
Proof.
  intros Hc.
  destruct (new_IAMConstruct_returns scope id props)
    as (c' & Hc' & _ & _ & _ & _ & _ & Hr & Hw & _).
  rewrite Hc in Hc'. injection Hc' as <-.
  intros [|]; simpl; [rewrite Hr | rewrite Hw]; reflexivity.
Qed.

(** C5. Every statement the constructor builds ([po0] .. [po10], one per
    grant) is in exactly one place: once in the document its sid names
    ([Read] or [Write]) and not in the other; each document is the
    sequence of built statements of its class, in the order they were
    built, and the two documents hold eleven statements together, one
    per grant. *)
Theorem partition_correct scope id props :
  exists c,
    new_IAMConstruct scope id props = Return c
    /\ (forall cls,
          statements (policy c cls)
          = filter (fun g => sid_class (sid g) = Some cls) (grants props))
    /\ (forall g, g ∈ grants props ->
          exists cls,
            sid_class (sid g) = Some cls
            /\ length (filter (g =.) (statements (policy c cls))) = 1
            /\ g ∉ statements (policy c (other cls)))
    /\ length (statements (readPolicy c)) + length (statements (writePolicy c))
       = length (grants props).
Proof.
  built scope id props as c Hc Hr Hw _ _.
  pose proof (statements_by_class _ _ _ _ Hc) as Hcls.
  exists c. split; [done|]. split; [done|]. split.
  - intros g Hg. destruct (grants_class props g Hg) as [cls Hg_cls].
    exists cls. split; [done|]. split.
    + apply filter_eq_NoDup.
      * rewrite Hcls. apply NoDup_filter, NoDup_grants.
      * rewrite Hcls. by apply list_elem_of_filter.
    + rewrite Hcls. intros [Ho _]%list_elem_of_filter.
      rewrite Hg_cls in Ho. by destruct cls.
  - by rewrite Hr, Hw.
Qed.

(** ** What a statement carries *)

(** C8. Whatever the properties, the statements of the two documents
    are, in order and field by field, those of the source: each has the
    effect [ALLOW] (none denies), its sid, exactly the actions listed,
    exactly the resources listed, with every template literal
    substituted, and no condition, but for the RAM statement, which
    carries the condition [StringEquals] on [aws:ResourceTag/FMManaged]. *)
Theorem statement_content scope id props :
  exists c,
    new_IAMConstruct scope id props = Return c
    /\ content <$> statements (readPolicy c)
       = [ ("EC2Read0", ALLOW, ["ec2:DescribeRegions"], [str "*"], None);
           ("SSMRead05", ALLOW, ["ssm:GetParameter"],
            [regionParamArn props; ouParamArn props; tagParamArn props],
            None);
           ("S3Read06", ALLOW, ["s3:GetObject"],
            [str (bucketArn (s3Bucket props));
             str (bucketArn (s3Bucket props) +:+ "/*")],
            None);
           ("DNSRAMRead10", ALLOW,
            ["route53resolver:ListFirewallDomainLists";
             "route53resolver:ListFirewallRuleGroups";
             "ram:ListResources"],
            [str "*"], None) ]
    /\ content <$> statements (writePolicy c)
       = [ ("DDBWrite01", ALLOW,
            ["dynamodb:GetItem"; "dynamodb:UpdateItem"; "dynamodb:DeleteItem"],
            [str ("arn:aws:dynamodb:" +:+ ToString (region props) +:+ ":"
                  +:+ ToString (accountId props) +:+ ":table/"
                  +:+ ToString (policyTable props))],
            None);
           ("FMSWrite021", ALLOW, ["fms:PutPolicy"; "fms:DeletePolicy"],
            [str "arn:aws:fms:*:*:policy/*"], None);
           ("CloudWatchLogsWrite03", ALLOW,
            ["logs:CreateLogStream"; "logs:PutLogEvents"; "logs:CreateLogGroup"],
            [logGroup props], None);
           ("SQSWrite04", ALLOW, ["sqs:SendMessage"],
            [sqs props;
             str ("arn:aws:sqs:" +:+ ToString (region props) +:+ ":"
                  +:+ ToString (accountId props) +:+ ":"
                  +:+ ToString (metricsQueue props))],
            None);
           ("WAFWrite07", ALLOW, ["wafv2:*"; "shield:GetSubscriptionState"],
            [str "*"], None);
           ("DNSWrite08", ALLOW,
            ["route53resolver:CreateFirewallRule";
             "route53resolver:CreateFirewallRuleGroup";
             "route53resolver:DeleteFirewallRuleGroup";
             "route53resolver:ListFirewallRules";
             "route53resolver:DeleteFirewallRule";
             "route53resolver:GetFirewallRuleGroup"],
            [str "*"], None);
           ("RAMWrite09", ALLOW, ["ram:DeleteResourceShare"], [str "*"],
            Some {[ "StringEquals" :=
                      {[ "aws:ResourceTag/FMManaged" := "true" ]} ]}) ]
    /\ (forall cls s, s ∈ statements (policy c cls) -> effect s <> DENY).
Proof.
  built scope id props as c Hc Hr Hw _ _.
  exists c. split; [done|]. rewrite Hr, Hw.
  split; [|split].
  - unfold content. simpl. by rewrite append_empty_r.
  - unfold content. simpl. by rewrite !append_empty_r.
  - intros cls s Hs.
    assert (effect s = ALLOW) as ->; [|done].
    destruct cls; simpl in Hs; [rewrite Hr in Hs | rewrite Hw in Hs];
      repeat (apply elem_of_cons in Hs as [->|Hs]; [done|]);
      by apply elem_of_nil in Hs.
Qed.

(** ** The identifiers reach the resources only *)

(** C10. For any two sets of properties the constructor returns four
    read and seven write statements, and the two results agree on the
    sids (in order), the effects, the actions, the conditions and the
    suppression rules of each document: only resources can differ. *)
Theorem structure_independent_of_identifiers scope1 id1 props1 scope2 id2 props2 :
  exists c1 c2,
    new_IAMConstruct scope1 id1 props1 = Return c1
    /\ new_IAMConstruct scope2 id2 props2 = Return c2
    /\ length (statements (readPolicy c1)) = 4
    /\ length (statements (writePolicy c1)) = 7
    /\ length (statements (readPolicy c2)) = 4
    /\ length (statements (writePolicy c2)) = 7
    /\ forall cls,
         sid <$> statements (policy c1 cls) = sid <$> statements (policy c2 cls)
         /\ effect <$> statements (policy c1 cls)
            = effect <$> statements (policy c2 cls)
         /\ actions <$> statements (policy c1 cls)
            = actions <$> statements (policy c2 cls)
         /\ conditions <$> statements (policy c1 cls)
            = conditions <$> statements (policy c2 cls)
         /\ suppressions (policy c1 cls) = suppressions (policy c2 cls).
Proof.
  built scope1 id1 props1 as c1 Hc1 Hr1 Hw1 Hsr1 Hsw1.
  built scope2 id2 props2 as c2 Hc2 Hr2 Hw2 Hsr2 Hsw2.
  exists c1, c2. rewrite Hr1, Hw1, Hr2, Hw2.
  do 6 (split; [done|]).
  intros [|]; simpl.
  - by rewrite Hr1, Hr2, Hsr1, Hsr2.
  - by rewrite Hw1, Hw2, Hsw1, Hsw2.
Qed.

(** ** Equal identifiers, equal statements *)

Lemma statements_of_identifiers props1 props2 :
  identifiers props1 = identifiers props2 ->
  grants props1 = grants props2.
Proof.
  destruct props1 as [? ? ? ? ? ? ? ? ? ? [?]], props2 as [? ? ? ? ? ? ? ? ? ? [?]].
  unfold identifiers; simpl. intros [= -> -> -> -> -> -> -> -> -> ->].
  reflexivity.
Qed.

(** ** The wildcard action of the write policy *)

(** C9. The suppression rules of the write policy always hold a rule
    [F4], about the WAFv2 permissions, next to the rule [W12] about [*]
    resources; the write document has the action [wafv2:*], in the
    statement [WAFWrite07], and that is the only action of either
    document that names every verb of a service; the read policy has no
    rule [F4]. *)
Theorem write_policy_suppresses_wildcard_action scope id props :
  exists c,
    new_IAMConstruct scope id props = Return c
    /\ suppressions (writePolicy c)
       = [ {| cfn_nag.id := "W12";
              cfn_nag.reason :=
                "* resource used for fms and route53resolver actions, resources are created/deleted as part of solution" |};
           {| cfn_nag.id := "F4";
              cfn_nag.reason :=
                "Read & Write permissions needed to create WAFv2 policies" |} ]
    /\ (exists s,
          statement_with_sid "WAFWrite07" (writePolicy c) = Some s
          /\ "wafv2:*" ∈ actions s
          /\ wildcard_action "wafv2:*" = true)
    /\ (forall cls s a,
          s ∈ statements (policy c cls) -> a ∈ actions s ->
          wildcard_action a = true ->
          cls = WRITE /\ sid s = "WAFWrite07" /\ a = "wafv2:*")
    /\ (forall r, r ∈ suppressions (readPolicy c) -> cfn_nag.id r <> "F4").
Proof.
  built scope id props as c Hc Hr Hw Hsr Hsw.
  exists c. split; [done|]. split; [by rewrite Hsw|]. split; [|split].
  - exists po7. unfold statement_with_sid. rewrite Hw.
    split; [reflexivity|]. split; [|reflexivity].
    simpl. apply elem_of_cons. by left.
  - intros cls s a Hs Ha Hwild.
    destruct cls; simpl in Hs; [rewrite Hr in Hs | rewrite Hw in Hs];
      repeat (apply elem_of_cons in Hs as [->|Hs];
              [ simpl in Ha;
                repeat (apply elem_of_cons in Ha as [->|Ha];
                        [ first [ discriminate Hwild | done ] |]);
                by apply elem_of_nil in Ha |]);
      by apply elem_of_nil in Hs.
  - rewrite Hsr. simpl. intros r Hrule.
    apply list_elem_of_singleton in Hrule as ->. done.
Qed.

(** ** Wildcard resources and suppression rules *)


(** For the sample properties alone an assignment can satisfy the law
    only by giving the statements with [*] of the write document two
    rule ids, [W12] to one and [F4] to another. *)
Lemma justified_write_needs_two_rule_ids scope id c rule_id justification :
  new_IAMConstruct scope id example_props = Return c ->
  justified rule_id justification (writePolicy c) ->
  exists s1 s2,
    s1 ∈ wildcard_statements (writePolicy c)
    /\ s2 ∈ wildcard_statements (writePolicy c)
    /\ rule_id (sid s1) = "W12"
    /\ rule_id (sid s2) = "F4".
Proof.
  intros Hc (_ & _ & Hrules).
  destruct (new_IAMConstruct_returns scope id example_props)
    as (c' & Hc' & _ & _ & _ & _ & _ & _ & _ & _ & Hsw).
  rewrite Hc in Hc'. injection Hc' as <-.
  rewrite Hsw in Hrules.
  assert (Forall (fun r => exists s,
                      s ∈ wildcard_statements (writePolicy c)
                      /\ cfn_nag.id r = rule_id (sid s))
            (cfn_nag.rules_to_suppress writePolicy_metadata)) as Hall.
  { apply Forall_forall. intros r (s & Hs & ->)%Hrules. eauto. }
  apply Forall_cons in Hall as [(s1 & Hs1 & H1) Hall].
  apply Forall_cons in Hall as [(s2 & Hs2 & H2) _].
  exists s1, s2. done.
Qed.

Lemma has_wildcard_literal (s : PolicyStatement) :
  resources s = [str "*"] -> has_wildcard s.
Proof. intros Hs. unfold has_wildcard. rewrite Hs. in_list. Qed.

Lemma append_slash_star_not_star (b : string) :
  b +:+ "/*" +:+ EmptyString <> "*".
Proof.
  destruct b as [|a b]; [discriminate|].
  change (String a (b +:+ "/*" +:+ EmptyString) <> "*").
  intros [= _ Hb]. destruct b; discriminate Hb.
Qed.

(** The statements whose resources come from the identifiers have no
    [*] unless an identifier is [*]. *)
Lemma scoped_statements props :
  str "*" ∉ identifiers props ->
  ~ has_wildcard (po1 props) /\ ~ has_wildcard po2
  /\ ~ has_wildcard (po3 props) /\ ~ has_wildcard (po4 props)
  /\ ~ has_wildcard (po5 props) /\ ~ has_wildcard (po6 props).
Proof.
  unfold identifiers, has_wildcard. intros Hids.
  repeat (apply not_elem_of_cons in Hids as [? Hids]).
  repeat split; simpl; intros Hin;
    repeat (apply elem_of_cons in Hin as [Heq|Hin];
            [ first [ congruence | discriminate Heq | idtac ] |]);
    try (by apply elem_of_nil in Hin).
  injection Heq as Heq. symmetry in Heq.
  by apply append_slash_star_not_star in Heq.
Qed.

(** In each document the statements built with the literal resource [*]
    ([po0] and [po10]; [po7], [po8] and [po9]) have [*] among their
    resources and, unless an identifier is itself [*], no other
    statement has; the policy carries exactly one rule [W12], with a
    non-empty reason; the rules are fixed texts, the same for all
    properties. *)
Lemma one_W12_rule_per_document scope id props :
  exists c,
    new_IAMConstruct scope id props = Return c
    /\ (forall s, s ∈ [po0; po10] -> s ∈ wildcard_statements (readPolicy c))
    /\ (forall s, s ∈ [po7; po8; po9] -> s ∈ wildcard_statements (writePolicy c))
    /\ (str "*" ∉ identifiers props ->
        wildcard_statements (readPolicy c) = [po0; po10]
        /\ wildcard_statements (writePolicy c) = [po7; po8; po9])
    /\ (forall cls,
          exists r,
            filter (fun r => cfn_nag.id r = "W12") (suppressions (policy c cls)) = [r]
            /\ cfn_nag.reason r <> EmptyString)
    /\ suppressions (readPolicy c) = cfn_nag.rules_to_suppress readPolicy_metadata
    /\ suppressions (writePolicy c) = cfn_nag.rules_to_suppress writePolicy_metadata.
Proof.
  built scope id props as c Hc Hr Hw Hsr Hsw.
  exists c. split; [done|].
  split; [|split; [|split; [|split; [|done]]]].
  - intros s Hs. unfold wildcard_statements. apply list_elem_of_filter.
    rewrite Hr.
    repeat (apply elem_of_cons in Hs as [->|Hs];
            [split; [by apply has_wildcard_literal | in_list] |]).
    by apply elem_of_nil in Hs.
  - intros s Hs. unfold wildcard_statements. apply list_elem_of_filter.
    rewrite Hw.
    repeat (apply elem_of_cons in Hs as [->|Hs];
            [split; [by apply has_wildcard_literal | in_list] |]).
    by apply elem_of_nil in Hs.
  - intros (H1 & H2 & H3 & H4 & H5 & H6)%scoped_statements.
    unfold wildcard_statements. rewrite Hr, Hw.
    repeat first
      [ rewrite filter_cons_True by (by apply has_wildcard_literal)
      | rewrite filter_cons_False by assumption ].
    by rewrite !filter_nil.
  - intros [|]; simpl; [rewrite Hsr | rewrite Hsw]; eexists;
      (split; [reflexivity | done]).
Qed.




(** ** No validation, no failure *)


(** C2, as the design document states it, fails: with every identifier
    left out the constructor still returns its two documents. *)
Lemma fails_closed_refuted :
  ~ fails_closed_at ["FMSStack"] "IAMConstruct" props_without_identifiers.
Proof.
  intros Hclosed. apply Hclosed.
  - unfold unresolved. simpl. apply elem_of_cons. by left.
  - built ["FMSStack"] "IAMConstruct" props_without_identifiers as c Hc _ _ _ _.
    by exists c.
Qed.

(** ** Template resolution *)


(** ** The numbers in the sids *)

(** C3, as the design document states it, fails: in the read document
    of the sample properties the first two statements are [EC2Read0] and
    [SSMRead05]; their numbers 0 and 5 do not follow one another, and
    are not both the first number of a sequence of their own tag. *)
Lemma numbered_in_sequence_refuted :
  ~ numbered_in_sequence_at ["FMSStack"] "IAMConstruct" example_props.
Proof.
  intros Hseq.
  built ["FMSStack"] "IAMConstruct" example_props as c Hc Hr _ _ _.
  destruct (Hseq c Hc READ) as [[first Hfirst]|[first Hfirst]];
    simpl in Hfirst; rewrite Hr in Hfirst;
    pose proof (Hfirst 0 po0 eq_refl) as H0;
    pose proof (Hfirst 1 (po5 example_props) eq_refl) as H1.
  - change (sid_number (sid po0)) with 0 in H0.
    change (sid_number (sid (po5 example_props))) with 5 in H1.
    lia.
  - change (sid_number (sid po0)) with 0 in H0.
    change (sid_number (sid (po5 example_props))) with 5 in H1.
    change (index_in_group _ 0 po0) with 0 in H0.
    change (index_in_group _ 1 (po5 example_props)) with 0 in H1.
    lia.
Qed.

(** C3, amended. Each sid is a literal of the constructor, the same for
    all properties: a tag, the word [Read] or [Write] of the document
    the statement stands in, and digits. Leaving [FMSWrite021] aside, the
    numbers run 0, 5, 6, 10 along the read document and 1, 3, 4, 7, 8, 9
    along the write document: they increase inside each document without
    following one another, the two documents sharing the one numbering
    0, 1, 3, 4, ... 10; leaving [EC2Read0] aside as well, the number is
    written in two digits. *)
Theorem sid_numbers_shared_between_documents scope id props :
  exists c,
    new_IAMConstruct scope id props = Return c
    /\ (forall cls s,
          s ∈ statements (policy c cls) ->
          sid_class (sid s) = Some cls
          /\ sid s = sid_tag (sid s) +:+ class_word cls +:+ sid_digits (sid s))
    /\ sid_number <$> filter (.≠ "FMSWrite021") (sid <$> statements (readPolicy c))
       = [0; 5; 6; 10]
    /\ sid_number <$> filter (.≠ "FMSWrite021") (sid <$> statements (writePolicy c))
       = [1; 3; 4; 7; 8; 9]
    /\ (forall cls s,
          s ∈ statements (policy c cls) ->
          sid s <> "FMSWrite021" -> sid s <> "EC2Read0" ->
          sid s = derive_sid (sid_tag (sid s)) cls (sid_number (sid s))).
Proof.
  built scope id props as c Hc Hr Hw _ _.
  exists c. split; [done|]. split; [|split; [|split]].
  - intros cls s Hs.
    destruct cls; simpl in Hs; [rewrite Hr in Hs | rewrite Hw in Hs];
      repeat (apply elem_of_cons in Hs as [->|Hs]; [by split|]);
      by apply elem_of_nil in Hs.
  - by rewrite Hr.
  - by rewrite Hw.
  - intros cls s Hs Hfms Hec2.
    destruct cls; simpl in Hs; [rewrite Hr in Hs | rewrite Hw in Hs];
      repeat (apply elem_of_cons in Hs as [->|Hs];
              [first [reflexivity | done]|]);
      by apply elem_of_nil in Hs.
Qed.

(** * Further properties of the construct *)

(** ** Which identifiers a document depends on *)

(** X1. The read document and the read identifiers (the three parameter
    ARNs and the bucket ARN) determine one another: two constructions
    return equal read documents exactly when they were given equal read
    identifiers; the identifiers of the write policy, the role, the scope
    and the id have no part in it. *)
Theorem read_document_iff_read_identifiers scope1 id1 props1 scope2 id2 props2 :
  exists c1 c2,
    new_IAMConstruct scope1 id1 props1 = Return c1
    /\ new_IAMConstruct scope2 id2 props2 = Return c2
    /\ (document (readPolicy c1) = document (readPolicy c2)
        <-> read_identifiers props1 = read_identifiers props2).
Proof.
  built scope1 id1 props1 as c1 Hc1 Hr1 _ Hsr1 _.
  built scope2 id2 props2 as c2 Hc2 Hr2 _ Hsr2 _.
  exists c1, c2. do 2 (split; [done|]).
  unfold document, read_identifiers. rewrite Hr1, Hr2, Hsr1, Hsr2.
  split.
  - intros [= -> -> -> -> _]. done.
  - intros [= H1 H2 H3 H4]. unfold po5, po6. by rewrite H1, H2, H3, H4.
Qed.

Lemma write_statements_of_write_texts props1 props2 :
  write_texts props1 = write_texts props2 ->
  po1 props1 = po1 props2 /\ po3 props1 = po3 props2 /\ po4 props1 = po4 props2.
Proof.
  unfold write_texts, templated_identifiers. simpl.
  intros [= Hlog Hsqs Hregion Haccount Htable Hqueue].
  unfold po1, po3, po4. simpl.
  by rewrite Hlog, Hsqs, Hregion, Haccount, Htable, Hqueue.
Qed.

(** X2. The write document sees its identifiers only as far as this:
    the log group and the queue ARN as they are, and the text of the
    region, the account id, the table and the metrics queue. Two
    constructions that agree on these return equal write documents, so a
    substituted identifier that was left out gives the document of an
    identifier that reads [undefined]. *)
Theorem write_document_of_write_texts scope1 id1 props1 scope2 id2 props2 :
  write_texts props1 = write_texts props2 ->
  exists c1 c2,
    new_IAMConstruct scope1 id1 props1 = Return c1
    /\ new_IAMConstruct scope2 id2 props2 = Return c2
    /\ document (writePolicy c1) = document (writePolicy c2).
Proof.
  intros (H1 & H3 & H4)%write_statements_of_write_texts.
  built scope1 id1 props1 as c1 Hc1 _ Hw1 _ Hsw1.
  built scope2 id2 props2 as c2 Hc2 _ Hw2 _ Hsw2.
  exists c1, c2. do 2 (split; [done|]).
  unfold document. by rewrite Hw1, Hw2, Hsw1, Hsw2, H1, H3, H4.
Qed.

Lemma write_document_of_write_texts_witness :
  write_texts props_without_policyTable
  = write_texts props_policyTable_undefined_text
  /\ policyTable props_without_policyTable
     <> policyTable props_policyTable_undefined_text
  /\ exists c1 c2,
       new_IAMConstruct ["FMSStack"] "IAMConstruct" props_without_policyTable
       = Return c1
       /\ new_IAMConstruct ["FMSStack"] "IAMConstruct"
            props_policyTable_undefined_text
          = Return c2
       /\ document (writePolicy c1) = document (writePolicy c2).
Proof.
  split; [reflexivity|]. split; [discriminate|].
  apply (write_document_of_write_texts
           ["FMSStack"] "IAMConstruct" props_without_policyTable
           ["FMSStack"] "IAMConstruct" props_policyTable_undefined_text).
  reflexivity.
Defined.

(** ** Reading the identifiers back from the write document *)

Lemma after_colon_cons a s :
  no_colon (String a s) -> a <> colon /\ no_colon s.
Proof.
  unfold no_colon. simpl. destruct (Ascii.eqb_spec a colon); [discriminate|done].
Qed.

(** Two texts without a colon, each followed by a colon: where the
    first colon stands tells them apart. *)
Lemma split_at_first_colon r1 r2 x y :
  no_colon r1 -> no_colon r2 ->
  r1 +:+ ":" +:+ x = r2 +:+ ":" +:+ y ->
  r1 = r2 /\ x = y.
Proof.
  revert r2. induction r1 as [|a r1 IH]; intros [|b r2] H1 H2 Heq.
  - by injection Heq.
  - apply after_colon_cons in H2 as [Hb _].
    change (String colon x = String b (r2 +:+ ":" +:+ y)) in Heq.
    by injection Heq as <- _.
  - apply after_colon_cons in H1 as [Ha _].
    change (String a (r1 +:+ ":" +:+ x) = String colon y) in Heq.
    by injection Heq as -> _.
  - apply after_colon_cons in H1 as [_ H1].
    apply after_colon_cons in H2 as [_ H2].
    change (String a (r1 +:+ ":" +:+ x) = String b (r2 +:+ ":" +:+ y)) in Heq.
    injection Heq as -> Heq.
    destruct (IH r2 H1 H2 Heq) as [-> ->]. done.
Qed.

(** The two ARN templates, after any common beginning [p]. *)
Lemma dynamodb_arn_inj p r1 a1 t1 r2 a2 t2 :
  no_colon r1 -> no_colon a1 -> no_colon r2 -> no_colon a2 ->
  p +:+ r1 +:+ ":" +:+ a1 +:+ ":table/" +:+ t1 +:+ EmptyString
  = p +:+ r2 +:+ ":" +:+ a2 +:+ ":table/" +:+ t2 +:+ EmptyString ->
  r1 = r2 /\ a1 = a2 /\ t1 = t2.
Proof.
  intros Hr1 Ha1 Hr2 Ha2 Heq.
  apply (inj (String.append _)) in Heq.
  apply split_at_first_colon in Heq as [-> Heq]; [|done..].
  change (a1 +:+ ":" +:+ "table/" +:+ t1 +:+ EmptyString
          = a2 +:+ ":" +:+ "table/" +:+ t2 +:+ EmptyString) in Heq.
  apply split_at_first_colon in Heq as [-> Heq]; [|done..].
  apply (inj (String.append _)) in Heq.
  rewrite !append_empty_r in Heq. done.
Qed.

Lemma sqs_arn_inj p r1 a1 q1 r2 a2 q2 :
  no_colon r1 -> no_colon a1 -> no_colon r2 -> no_colon a2 ->
  p +:+ r1 +:+ ":" +:+ a1 +:+ ":" +:+ q1 +:+ EmptyString
  = p +:+ r2 +:+ ":" +:+ a2 +:+ ":" +:+ q2 +:+ EmptyString ->
  r1 = r2 /\ a1 = a2 /\ q1 = q2.
Proof.
  intros Hr1 Ha1 Hr2 Ha2 Heq.
  apply (inj (String.append _)) in Heq.
  apply split_at_first_colon in Heq as [-> Heq]; [|done..].
  apply split_at_first_colon in Heq as [-> Heq]; [|done..].
  rewrite !append_empty_r in Heq. done.
Qed.

(** X3. When the texts of the region and of the account id hold no
    colon, the write document gives back what it saw: two constructions
    with equal write documents were given the same log group, the same
    queue ARN and the same texts for the region, the account id, the
    table and the metrics queue. *)
Theorem write_texts_of_write_document scope1 id1 props1 scope2 id2 props2 :
  no_colon (ToString (region props1)) ->
  no_colon (ToString (accountId props1)) ->
  no_colon (ToString (region props2)) ->
  no_colon (ToString (accountId props2)) ->
  exists c1 c2,
    new_IAMConstruct scope1 id1 props1 = Return c1
    /\ new_IAMConstruct scope2 id2 props2 = Return c2
    /\ (document (writePolicy c1) = document (writePolicy c2)
        -> write_texts props1 = write_texts props2).
Proof.
  intros Hr1 Ha1 Hr2 Ha2.
  built scope1 id1 props1 as c1 Hc1 _ Hw1 _ Hsw1.
  built scope2 id2 props2 as c2 Hc2 _ Hw2 _ Hsw2.
  exists c1, c2. do 2 (split; [done|]).
  unfold document. rewrite Hw1, Hw2.
  unfold po1, po3, po4. simpl.
  intros [= Hddb Hlog Hsqs Hq _].
  apply dynamodb_arn_inj in Hddb as (Hr & Ha & Ht); [|done..].
  apply sqs_arn_inj in Hq as (_ & _ & Hq); [|done..].
  unfold write_texts, templated_identifiers. simpl.
  by rewrite Hlog, Hsqs, Hr, Ha, Ht, Hq.
Qed.

Lemma write_texts_of_write_document_witness :
  no_colon (ToString (region example_props))
  /\ no_colon (ToString (accountId example_props))
  /\ no_colon (ToString (region example_props_other_role))
  /\ no_colon (ToString (accountId example_props_other_role))
  /\ exists c1 c2,
       new_IAMConstruct ["FMSStack"] "IAMConstruct" example_props = Return c1
       /\ new_IAMConstruct ["OtherStack"] "Iam" example_props_other_role
          = Return c2
       /\ (document (writePolicy c1) = document (writePolicy c2)
           -> write_texts example_props = write_texts example_props_other_role).
Proof.
  do 4 (split; [reflexivity|]).
  apply (write_texts_of_write_document
           ["FMSStack"] "IAMConstruct" example_props
           ["OtherStack"] "Iam" example_props_other_role);
    reflexivity.
Defined.

(** ** Templates do not delimit what they substitute *)

Lemma append_assoc (a b c : string) : (a +:+ b) +:+ c = a +:+ b +:+ c.
Proof.
  induction a as [|x a IH]; [done|].
  change (String x ((a +:+ b) +:+ c) = String x (a +:+ b +:+ c)). by f_equal.
Qed.

Lemma append_nonempty_neq (x y : string) (c : Ascii.ascii) :
  x +:+ String c y <> x.
Proof.
  induction x as [|a x IH]; [discriminate|].
  change (String a (x +:+ String c y) <> String a x). by intros [= ?].
Qed.

(** X4. A colon inside the region or the account id is not told from
    the colon of the template: the region [x:y] with the account [z] and
    the region [x] with the account [y:z] are different properties and
    give the same two documents. *)
Theorem colon_moves_between_region_and_account scope id props (x y z : string) :
  let props1 := with_region_account (str (x +:+ ":" +:+ y)) (str z) props in
  let props2 := with_region_account (str x) (str (y +:+ ":" +:+ z)) props in
  region props1 <> region props2
  /\ exists c1 c2,
       new_IAMConstruct scope id props1 = Return c1
       /\ new_IAMConstruct scope id props2 = Return c2
       /\ forall cls, document (policy c1 cls) = document (policy c2 cls).
Proof.
  intros props1 props2. split.
  - simpl. intros [= Heq]. by apply append_nonempty_neq in Heq.
  - built scope id props1 as c1 Hc1 Hr1 Hw1 Hsr1 Hsw1.
    built scope id props2 as c2 Hc2 Hr2 Hw2 Hsr2 Hsw2.
    exists c1, c2. do 2 (split; [done|]).
    assert (po1 props1 = po1 props2) as H1.
    { unfold po1. simpl. by rewrite !append_assoc. }
    assert (po4 props1 = po4 props2) as H4.
    { unfold po4. simpl. by rewrite !append_assoc. }
    intros [|]; unfold document; simpl.
    + by rewrite Hr1, Hr2, Hsr1, Hsr2.
    + rewrite Hw1, Hw2, Hsw1, Hsw2, H1, H4. done.
Qed.

(** ** Statements fit for a policy document *)

Lemma well_formed_action_intro (a verb : string) :
  after_colon a = Some verb ->
  action_service a <> EmptyString ->
  verb <> EmptyString ->
  no_colon verb ->
  well_formed_action a.
Proof. intros. exists verb. done. Qed.

(** ** Actions *)

(** X7. No action is granted twice: over the two documents together
    the actions of all statements are pairwise different. *)
Theorem actions_granted_once scope id props :
  exists c,
    new_IAMConstruct scope id props = Return c
    /\ NoDup (granted_actions c)
    /\ length (granted_actions c) = 24.
Proof.
  built scope id props as c Hc Hr Hw _ _.
  exists c. split; [done|]. unfold granted_actions. rewrite Hr, Hw. simpl.
  split; [|done]. by apply (bool_decide_unpack _).
Qed.

(** X8. The read document only reads: each of its actions has a verb
    that begins with [Describe], [Get] or [List]. Every statement of the
    write document has an action that does more than read; none is made
    of reading actions alone. *)
Theorem read_document_reads_write_document_writes scope id props :
  exists c,
    new_IAMConstruct scope id props = Return c
    /\ (forall s a,
          s ∈ statements (readPolicy c) -> a ∈ actions s -> read_only_action a)
    /\ (forall s,
          s ∈ statements (writePolicy c) ->
          exists a, a ∈ actions s /\ ~ read_only_action a).
Proof.
  built scope id props as c Hc Hr Hw _ _.
  exists c. split; [done|]. split.
  - intros s a Hs Ha. rewrite Hr in Hs.
    repeat (apply elem_of_cons in Hs as [->|Hs];
            [ simpl in Ha;
              repeat (apply elem_of_cons in Ha as [->|Ha]; [reflexivity|]);
              by apply elem_of_nil in Ha |]).
    by apply elem_of_nil in Hs.
  - intros s Hs. rewrite Hw in Hs.
    assert (Exists (fun a => ~ read_only_action a) (actions s)) as Hex.
    { repeat (apply elem_of_cons in Hs as [->|Hs];
              [by apply (bool_decide_unpack _)|]).
      by apply elem_of_nil in Hs. }
    apply Exists_exists in Hex. done.
Qed.

(** ** The reason of the read policy's suppression *)

Lemma scoped_read_statements props :
  str "*" ∉ read_identifiers props ->
  ~ has_wildcard (po5 props) /\ ~ has_wildcard (po6 props).
Proof.
  unfold read_identifiers, has_wildcard. intros Hids.
  repeat (apply not_elem_of_cons in Hids as [? Hids]).
  split; simpl; intros Hin;
    repeat (apply elem_of_cons in Hin as [Heq|Hin];
            [ first [ congruence | idtac ] |]);
    try (by apply elem_of_nil in Hin).
  injection Heq as Heq. symmetry in Heq.
  by apply append_slash_star_not_star in Heq.
Qed.

(** X9. Unless a parameter ARN or the bucket ARN is itself [*], the one
    suppression rule of the read policy names, between its brackets and
    in their order, exactly the actions of the statements of the read
    document that have [*] among their resources. *)
Theorem read_suppression_names_wildcard_actions scope id props :
  str "*" ∉ read_identifiers props ->
  exists c r,
    new_IAMConstruct scope id props = Return c
    /\ suppressions (readPolicy c) = [r]
    /\ cfn_nag.id r = "W12"
    /\ cfn_nag.reason r
       = "* needed for ["
         +:+ join_with ", "
               (concat (actions <$> wildcard_statements (readPolicy c)))
         +:+ "], does no support resource level permissions".
Proof.
  intros (H5 & H6)%scoped_read_statements.
  built scope id props as c Hc Hr _ Hsr _.
  exists c. eexists. split; [done|].
  rewrite Hsr. split; [reflexivity|]. split; [reflexivity|].
  unfold wildcard_statements. rewrite Hr.
  repeat first
    [ rewrite filter_cons_True by (by apply has_wildcard_literal)
    | rewrite filter_cons_False by assumption ].
  rewrite filter_nil. reflexivity.
Qed.

Lemma read_suppression_names_wildcard_actions_witness :
  (str "*" ∉ read_identifiers example_props)
  /\ exists c r,
       new_IAMConstruct ["FMSStack"] "IAMConstruct" example_props = Return c
       /\ suppressions (readPolicy c) = [r]
       /\ cfn_nag.id r = "W12"
       /\ cfn_nag.reason r
          = "* needed for ["
            +:+ join_with ", "
                  (concat (actions <$> wildcard_statements (readPolicy c)))
            +:+ "], does no support resource level permissions".
Proof.
  assert (str "*" ∉ read_identifiers example_props) as Hids
    by (by apply (bool_decide_unpack _)).
  split; [exact Hids|].
  exact (read_suppression_names_wildcard_actions
           ["FMSStack"] "IAMConstruct" example_props Hids).
Defined.

(** * The constructor as it runs *)

(** ** Running step by step *)

Lemma bind_returned {A B : Type} (m : Run.run A) (k : A -> Run.run B) t a t' :
  m t = (Run.returned a, t') -> (m ≫= k) t = k a t'.
Proof. intros Hm. unfold mbind, Run.run_bind. by rewrite Hm. Qed.

Lemma bind_threw {A B : Type} (m : Run.run A) (k : A -> Run.run B) t e t' :
  m t = (Run.threw e, t') -> (m ≫= k) t = (Run.threw e, t').
Proof. intros Hm. unfold mbind, Run.run_bind. by rewrite Hm. Qed.

Lemma addChild_returns (scope : Construct) (id : string) (n : Run.entry)
    (t : gmap Construct Run.entry) :
  id <> EmptyString ->
  t !! (scope ++ [id]) = None ->
  Run.addChild scope id n t
  = (Run.returned (scope ++ [id]), <[ scope ++ [id] := n ]> t).
Proof.
  intros Hid Hfree. unfold Run.addChild.
  rewrite decide_False by done.
  rewrite decide_False; [done|]. rewrite Hfree. by intros [? ?].
Qed.

Lemma addChild_in_use (scope : Construct) (id : string) (n : Run.entry)
    (t : gmap Construct Run.entry) :
  id <> EmptyString ->
  is_Some (t !! (scope ++ [id])) ->
  Run.addChild scope id n t = (Run.threw (Run.an_Error (Run.name_in_use id)), t).
Proof.
  intros Hid Hused. unfold Run.addChild.
  rewrite decide_False by done. by rewrite decide_True.
Qed.

(** ** Stacks above a path *)

Lemma stack_above_app (t : gmap Construct Run.entry) above below more :
  Run.stack_above t above below = true ->
  Run.stack_above t above (below ++ more) = true.
Proof.
  revert above. induction below as [|x below IH]; intros above; simpl.
  - rewrite orb_false_r. intros H. destruct more; simpl; by rewrite H.
  - intros [->|H]%orb_true_iff; [done|].
    rewrite (IH _ H). apply orb_true_r.
Qed.

Lemma stack_above_ext (t1 t2 : gmap Construct Run.entry) above below :
  (forall path, Run.is_Stack (t1 !! path) = Run.is_Stack (t2 !! path)) ->
  Run.stack_above t1 above below = Run.stack_above t2 above below.
Proof.
  intros Hsame. revert above.
  induction below as [|x below IH]; intros above; simpl;
    rewrite Hsame; [done|]. by rewrite IH.
Qed.

Lemma is_Stack_insert (t : gmap Construct Run.entry) (path : Construct)
    (n : Run.entry) (q : Construct) :
  t !! path = None ->
  Run.is_Stack (Some n) = false ->
  Run.is_Stack (<[ path := n ]> t !! q) = Run.is_Stack (t !! q).
Proof.
  intros Hfree Hn. destruct (decide (path = q)) as [<-|Hne].
  - by rewrite lookup_insert_eq, Hfree, Hn.
  - by rewrite lookup_insert_ne.
Qed.

Lemma under_Stack_insert (t : gmap Construct Run.entry) (path : Construct)
    (n : Run.entry) (above : Construct) :
  t !! path = None ->
  Run.is_Stack (Some n) = false ->
  Run.under_Stack (<[ path := n ]> t) above = Run.under_Stack t above.
Proof.
  intros Hfree Hn. apply stack_above_ext.
  intros q. by apply is_Stack_insert.
Qed.

Lemma under_Stack_below (t : gmap Construct Run.entry) scope below :
  Run.under_Stack t scope = true -> Run.under_Stack t (scope ++ below) = true.
Proof. apply stack_above_app. Qed.

(** ** The library's steps *)

Lemma Stack_of_returns (t : gmap Construct Run.entry) (path : Construct) :
  Run.under_Stack t path = true -> Run.Stack_of path t = (Run.returned tt, t).
Proof. intros H. unfold Run.Stack_of. by rewrite H. Qed.

Lemma Stack_of_throws (t : gmap Construct Run.entry) (path : Construct) :
  Run.under_Stack t path = false ->
  Run.Stack_of path t = (Run.threw (Run.an_Error (Run.no_stack path)), t).
Proof. intros H. unfold Run.Stack_of. by rewrite H. Qed.

Lemma new_Policy_returns (t : gmap Construct Run.entry) (scope : Construct)
    (id : string) (r : IRole) :
  id <> EmptyString ->
  t !! (scope ++ [id]) = None ->
  Run.under_Stack t scope = true ->
  Run.new_Policy scope id [Some r] t
  = (Run.returned (new_Policy scope id [r]),
     <[ scope ++ [id] := Run.a_Policy (new_Policy scope id [r]) ]> t).
Proof.
  intros Hid Hfree Hstack. unfold Run.new_Policy.
  erewrite bind_returned by (by apply addChild_returns). cbv beta.
  erewrite bind_returned.
  2:{ apply Stack_of_returns. rewrite under_Stack_insert by done.
      by apply under_Stack_below. }
  cbv beta. erewrite bind_returned by reflexivity. cbv beta.
  unfold Run.attachToRoles.
  erewrite bind_returned by reflexivity.
  unfold Run.attachToRole. rewrite decide_False by apply not_elem_of_nil.
  simpl. unfold mret, Run.run_ret, new_Policy.
  by rewrite !insert_insert_eq.
Qed.

Lemma new_Policy_without_role (t : gmap Construct Run.entry) (scope : Construct)
    (id : string) :
  id <> EmptyString ->
  t !! (scope ++ [id]) = None ->
  Run.under_Stack t scope = true ->
  exists t',
    Run.new_Policy scope id [None] t
    = (Run.threw (Run.a_TypeError "attachInlinePolicy"), t').
Proof.
  intros Hid Hfree Hstack. unfold Run.new_Policy.
  erewrite bind_returned by (by apply addChild_returns). cbv beta.
  erewrite bind_returned.
  2:{ apply Stack_of_returns. rewrite under_Stack_insert by done.
      by apply under_Stack_below. }
  cbv beta. erewrite bind_returned by reflexivity. cbv beta.
  eexists. reflexivity.
Qed.

(** ** The policies in the tree *)

Lemma store_planted_read (t : gmap Construct Run.entry) (this : Construct)
    (r w r' : Policy) :
  node_path r' = node_path r ->
  node_path r <> node_path w ->
  Run.store r' (planted t this r w) = (Run.returned r', planted t this r' w).
Proof.
  intros Hsame Hne. unfold Run.store, planted. rewrite Hsame. f_equal.
  rewrite insert_insert_ne by done. by rewrite insert_insert_eq.
Qed.

Lemma store_planted_write (t : gmap Construct Run.entry) (this : Construct)
    (r w w' : Policy) :
  node_path w' = node_path w ->
  Run.store w' (planted t this r w) = (Run.returned w', planted t this r w').
Proof.
  intros Hsame. unfold Run.store, planted. rewrite Hsame. f_equal.
  by rewrite insert_insert_eq.
Qed.

Lemma node_path_with_statements p l :
  node_path (with_statements p l) = node_path p.
Proof.
  unfold with_statements. revert p.
  induction l as [|po l IH]; intros p; simpl; [done|]. by rewrite IH.
Qed.

(** ** The construct, step by step *)

Lemma unused_paths (t : gmap Construct Run.entry) (this : Construct) :
  Run.unused t this ->
  t !! this = None
  /\ t !! (this ++ ["FMSPolicyRead"]) = None
  /\ t !! (this ++ ["FMSPolicyWrite"]) = None.
Proof.
  intros Hun. split; [|split]; [|apply Hun..].
  specialize (Hun []). by rewrite app_nil_r in Hun.
Qed.

Lemma path_below_ne (this : Construct) (name : string) : this <> this ++ [name].
Proof.
  intros Heq. apply (f_equal length) in Heq.
  rewrite length_app in Heq. simpl in Heq. lia.
Qed.

Lemma policy_paths_ne (this : Construct) :
  this ++ ["FMSPolicyRead"] <> this ++ ["FMSPolicyWrite"].
Proof. by intros [= ?]%app_inv_head. Qed.

Lemma stack_above_snoc (t : gmap Construct Run.entry)
    (above below : Construct) (x : string) :
  Run.stack_above t above (below ++ [x])
  = Run.stack_above t above below
    || Run.is_Stack (t !! (above ++ below ++ [x])).
Proof.
  revert above. induction below as [|y below IH]; intros above; simpl.
  - by rewrite !orb_false_r.
  - rewrite IH, <- (app_assoc above [y]). simpl. by rewrite orb_assoc.
Qed.

(** The first three lines: the construct and its two policies take
    their places. *)
Lemma run_first_lines {B : Type} (t : gmap Construct Run.entry)
    (scope : Construct) (id : string) (r : IRole)
    (k : Construct -> Policy -> Policy -> Run.run B) :
  id <> EmptyString ->
  Run.unused t (scope ++ [id]) ->
  Run.under_Stack t scope = true ->
  (this ← Run.addChild scope id Run.a_Construct;
   readPolicy ← Run.new_Policy this "FMSPolicyRead" [Some r];
   writePolicy ← Run.new_Policy this "FMSPolicyWrite" [Some r];
   k this readPolicy writePolicy) t
  = k (scope ++ [id])
      (new_Policy (scope ++ [id]) "FMSPolicyRead" [r])
      (new_Policy (scope ++ [id]) "FMSPolicyWrite" [r])
      (planted t (scope ++ [id])
         (new_Policy (scope ++ [id]) "FMSPolicyRead" [r])
         (new_Policy (scope ++ [id]) "FMSPolicyWrite" [r])).
Proof.
  intros Hid (H0 & Hr & Hw)%unused_paths Hstack.
  set (this := scope ++ [id]) in *.
  erewrite bind_returned by (by apply addChild_returns). cbv beta.
  erewrite bind_returned.
  2:{ apply new_Policy_returns; [done| |].
      - rewrite lookup_insert_ne by apply path_below_ne. done.
      - rewrite under_Stack_insert by done. by apply under_Stack_below. }
  cbv beta. erewrite bind_returned.
  2:{ apply new_Policy_returns; [done| |].
      - rewrite lookup_insert_ne by apply policy_paths_ne.
        rewrite lookup_insert_ne by apply path_below_ne. done.
      - rewrite under_Stack_insert; [|by rewrite lookup_insert_ne
                                            by apply path_below_ne|done].
        rewrite under_Stack_insert by done. by apply under_Stack_below. }
  reflexivity.
Qed.

(** One statement more, in the policy and in the tree. *)
Lemma run_add_read {B : Type} (t : gmap Construct Run.entry) (this : Construct)
    (r w : Policy) (po : PolicyStatement) (k : Policy -> Run.run B) :
  node_path r <> node_path w ->
  (Run.store (addStatements r po) ≫= k) (planted t this r w)
  = k (addStatements r po) (planted t this (addStatements r po) w).
Proof. intros Hne. apply bind_returned. by apply store_planted_read. Qed.

Lemma run_add_write {B : Type} (t : gmap Construct Run.entry) (this : Construct)
    (r w : Policy) (po : PolicyStatement) (k : Policy -> Run.run B) :
  (Run.store (addStatements w po) ≫= k) (planted t this r w)
  = k (addStatements w po) (planted t this r (addStatements w po)).
Proof. apply bind_returned. by apply store_planted_write. Qed.

Lemma set_metadata_node_path p id md p' :
  set_metadata p id md = Return p' -> node_path p' = node_path p.
Proof.
  unfold set_metadata. destruct (findChild p id); simpl; [|done].
  by intros [= <-].
Qed.

Lemma run_set_metadata_read {B : Type} (t : gmap Construct Run.entry)
    (this : Construct) (r w r' : Policy) md (k : Policy -> Run.run B) :
  node_path r <> node_path w ->
  set_metadata r "Resource" md = Return r' ->
  (p ← Run.lift (set_metadata r "Resource" md); Run.store p ≫= k)
    (planted t this r w)
  = k r' (planted t this r' w).
Proof.
  intros Hne Hmd. rewrite Hmd. simpl.
  erewrite bind_returned by reflexivity.
  apply bind_returned, store_planted_read; [|done].
  by eapply set_metadata_node_path.
Qed.

Lemma run_set_metadata_write {B : Type} (t : gmap Construct Run.entry)
    (this : Construct) (r w w' : Policy) md (k : Policy -> Run.run B) :
  set_metadata w "Resource" md = Return w' ->
  (p ← Run.lift (set_metadata w "Resource" md); Run.store p ≫= k)
    (planted t this r w)
  = k w' (planted t this r w').
Proof.
  intros Hmd. rewrite Hmd. simpl.
  erewrite bind_returned by reflexivity.
  apply bind_returned, store_planted_write.
  by eapply set_metadata_node_path.
Qed.

(** With a scope that takes the construct, a role and a bucket, the
    constructor runs to its end. *)
Lemma run_to_the_end (t : gmap Construct Run.entry) (scope : Construct)
    (id : string) (props : Run.IIam) (r : IRole) (b : Run.Bucket)
    (R' W' : Policy) :
  id <> EmptyString ->
  Run.unused t (scope ++ [id]) ->
  Run.under_Stack t scope = true ->
  Run.role props = Some r ->
  Run.s3Bucket props = Some b ->
  set_metadata
    (with_statements (new_Policy (scope ++ [id]) "FMSPolicyRead" [r])
       [Run.po0; Run.po5 props; Run.po6 (Run.bucketArn b); Run.po10])
    "Resource" readPolicy_metadata = Return R' ->
  set_metadata
    (with_statements (new_Policy (scope ++ [id]) "FMSPolicyWrite" [r])
       [Run.po1 props; Run.po2; Run.po3 props; Run.po4 props;
        Run.po7; Run.po8; Run.po9])
    "Resource" writePolicy_metadata = Return W' ->
  Run.new_IAMConstruct scope id props t
  = (Run.returned {| node := scope ++ [id];
                     readPolicy := R';
                     writePolicy := W' |},
     planted t (scope ++ [id]) R' W').
Proof.
  intros Hid Hunused Hstack Hrole Hbucket HR HW.
  unfold Run.new_IAMConstruct. rewrite Hrole.
  rewrite run_first_lines by done. cbv beta.
  rewrite run_add_read by apply policy_paths_ne. cbv beta.
  do 4 (rewrite run_add_write; cbv beta).
  rewrite run_add_read by apply policy_paths_ne. cbv beta.
  unfold Run.s3Bucket_bucketArn. rewrite Hbucket.
  erewrite bind_returned by reflexivity. cbv beta.
  rewrite run_add_read by apply policy_paths_ne. cbv beta.
  do 3 (rewrite run_add_write; cbv beta).
  rewrite run_add_read by apply policy_paths_ne. cbv beta.
  erewrite run_set_metadata_read; [|apply policy_paths_ne|exact HR].
  cbv beta.
  erewrite run_set_metadata_write; [|exact HW].
  reflexivity.
Qed.

(** Without a bucket it stops at [po6], the first six statements in the
    tree. *)
Lemma run_without_bucket (t : gmap Construct Run.entry) (scope : Construct)
    (id : string) (props : Run.IIam) (r : IRole) :
  id <> EmptyString ->
  Run.unused t (scope ++ [id]) ->
  Run.under_Stack t scope = true ->
  Run.role props = Some r ->
  Run.s3Bucket props = None ->
  Run.new_IAMConstruct scope id props t
  = (Run.threw (Run.a_TypeError "bucketArn"),
     planted t (scope ++ [id])
       (with_statements (new_Policy (scope ++ [id]) "FMSPolicyRead" [r])
          [Run.po0; Run.po5 props])
       (with_statements (new_Policy (scope ++ [id]) "FMSPolicyWrite" [r])
          [Run.po1 props; Run.po2; Run.po3 props; Run.po4 props])).
Proof.
  intros Hid Hunused Hstack Hrole Hbucket.
  unfold Run.new_IAMConstruct. rewrite Hrole.
  rewrite run_first_lines by done. cbv beta.
  rewrite run_add_read by apply policy_paths_ne. cbv beta.
  do 4 (rewrite run_add_write; cbv beta).
  rewrite run_add_read by apply policy_paths_ne. cbv beta.
  unfold Run.s3Bucket_bucketArn. rewrite Hbucket.
  erewrite bind_threw by reflexivity. reflexivity.
Qed.

(** ** What the constructor returns, and where it agrees with
    [new_IAMConstruct] *)

Lemma findChild_with_statements scope id rs l :
  findChild (with_statements (new_Policy scope id rs) l) "Resource"
  = Return {| cfnOptions_metadata := None |}.
Proof.
  unfold findChild.
  assert (children (with_statements (new_Policy scope id rs) l)
          = children (new_Policy scope id rs)) as ->.
  { unfold with_statements. generalize (new_Policy scope id rs) as p.
    induction l as [|po l IH]; intros p; simpl; [done|]. by rewrite IH. }
  exact (findChild_new_Policy scope id rs).
Qed.

Lemma statements_with_statements scope id rs l :
  statements (with_statements (new_Policy scope id rs) l) = l.
Proof.
  unfold with_statements.
  assert (forall p, statements (foldl addStatements p l) = statements p ++ l)
    as Hfold.
  { induction l as [|po l IH]; intros p; simpl; [by rewrite app_nil_r|].
    rewrite IH. simpl. by rewrite <- app_assoc. }
  by rewrite Hfold.
Qed.

(** Where it is admitted the constructor returns: the construct, its
    policies with the role, the four and the seven statements, the
    suppression rules; and the tree holds the construct and the two
    policies. *)
Lemma run_returns (t : gmap Construct Run.entry) (scope : Construct)
    (id : string) (props : Run.IIam) (b : Run.Bucket) :
  admitted t scope id props ->
  Run.s3Bucket props = Some b ->
  exists c,
    Run.new_IAMConstruct scope id props t
    = (Run.returned c, planted t (scope ++ [id]) (readPolicy c) (writePolicy c))
    /\ node c = scope ++ [id]
    /\ node_path (readPolicy c) = (scope ++ [id]) ++ ["FMSPolicyRead"]
    /\ node_path (writePolicy c) = (scope ++ [id]) ++ ["FMSPolicyWrite"]
    /\ Some <$> roles (readPolicy c) = [Run.role props]
    /\ Some <$> roles (writePolicy c) = [Run.role props]
    /\ statements (readPolicy c)
       = [Run.po0; Run.po5 props; Run.po6 (Run.bucketArn b); Run.po10]
    /\ statements (writePolicy c)
       = [Run.po1 props; Run.po2; Run.po3 props; Run.po4 props;
          Run.po7; Run.po8; Run.po9]
    /\ suppressions (readPolicy c)
       = cfn_nag.rules_to_suppress readPolicy_metadata
    /\ suppressions (writePolicy c)
       = cfn_nag.rules_to_suppress writePolicy_metadata.
Proof.
  intros (Hid & Hunused & Hstack & [r Hrole]) Hbucket.
  destruct (set_metadata_returns
              (with_statements (new_Policy (scope ++ [id]) "FMSPolicyRead" [r])
                 [Run.po0; Run.po5 props; Run.po6 (Run.bucketArn b); Run.po10])
              "Resource" _ readPolicy_metadata
              (findChild_with_statements _ _ _ _))
    as (R' & HR & HRn & HRr & HRs & HRm).
  destruct (set_metadata_returns
              (with_statements (new_Policy (scope ++ [id]) "FMSPolicyWrite" [r])
                 [Run.po1 props; Run.po2; Run.po3 props; Run.po4 props;
                  Run.po7; Run.po8; Run.po9])
              "Resource" _ writePolicy_metadata
              (findChild_with_statements _ _ _ _))
    as (W' & HW & HWn & HWr & HWs & HWm).
  exists {| node := scope ++ [id]; readPolicy := R'; writePolicy := W' |}.
  split.
  { by apply (run_to_the_end t scope id props r b R' W'). }
  simpl. rewrite HRn, HWn, HRr, HWr, HRs, HWs, HRm, HWm, Hrole.
  rewrite !statements_with_statements.
  repeat split.
Qed.

(** On the properties of the interface the constructor as it runs
    returns what [new_IAMConstruct] returns. *)
Lemma run_agrees (t : gmap Construct Run.entry) (scope : Construct)
    (id : string) (props : IIam) (c : IAMConstruct) :
  admitted t scope id (at_run_time props) ->
  new_IAMConstruct scope id props = Return c ->
  Run.new_IAMConstruct scope id (at_run_time props) t
  = (Run.returned c, planted t (scope ++ [id]) (readPolicy c) (writePolicy c)).
Proof.
  intros (Hid & Hunused & Hstack & _) Hc.
  unfold new_IAMConstruct in Hc.
  destruct (set_metadata _ "Resource" readPolicy_metadata)
    as [R'|] eqn:HR; [|done].
  destruct (set_metadata _ "Resource" writePolicy_metadata)
    as [W'|] eqn:HW; [|done].
  simpl in Hc. injection Hc as <-. simpl.
  by apply (run_to_the_end t scope id (at_run_time props) (role props)
              {| Run.bucketArn := str (bucketArn (s3Bucket props)) |} R' W').
Qed.

(** ** Where the constructor is refused *)

Lemma run_empty_name (t : gmap Construct Run.entry) (scope : Construct)
    (props : Run.IIam) :
  Run.new_IAMConstruct scope EmptyString props t
  = (Run.threw (Run.an_Error Run.empty_name), t).
Proof. reflexivity. Qed.

Lemma run_name_in_use (t : gmap Construct Run.entry) (scope : Construct)
    (id : string) (props : Run.IIam) :
  id <> EmptyString ->
  is_Some (t !! (scope ++ [id])) ->
  Run.new_IAMConstruct scope id props t
  = (Run.threw (Run.an_Error (Run.name_in_use id)), t).
Proof.
  intros Hid Hused. unfold Run.new_IAMConstruct.
  apply bind_threw. by apply addChild_in_use.
Qed.

Lemma run_without_role (t : gmap Construct Run.entry) (scope : Construct)
    (id : string) (props : Run.IIam) :
  id <> EmptyString ->
  Run.unused t (scope ++ [id]) ->
  Run.under_Stack t scope = true ->
  Run.role props = None ->
  exists t',
    Run.new_IAMConstruct scope id props t
    = (Run.threw (Run.a_TypeError "attachInlinePolicy"), t').
Proof.
  intros Hid (H0 & Hr & _)%unused_paths Hstack Hrole.
  unfold Run.new_IAMConstruct. rewrite Hrole.
  erewrite bind_returned by (by apply addChild_returns). cbv beta.
  edestruct (new_Policy_without_role
               (<[ scope ++ [id] := Run.a_Construct ]> t)
               (scope ++ [id]) "FMSPolicyRead") as [t' Ht'].
  - done.
  - by rewrite lookup_insert_ne by apply path_below_ne.
  - rewrite under_Stack_insert by done. by apply under_Stack_below.
  - exists t'. by apply bind_threw.
Qed.

Lemma run_outside_stack (t : gmap Construct Run.entry) (scope : Construct)
    (id : string) (props : Run.IIam) :
  id <> EmptyString ->
  Run.unused t (scope ++ [id]) ->
  Run.under_Stack t scope = false ->
  Run.new_IAMConstruct scope id props t
  = (Run.threw
       (Run.an_Error (Run.no_stack ((scope ++ [id]) ++ ["FMSPolicyRead"]))),
     <[ (scope ++ [id]) ++ ["FMSPolicyRead"]
        := Run.a_Policy {| node_path := (scope ++ [id]) ++ ["FMSPolicyRead"];
                           roles := []; statements := []; children := ∅ |} ]>
       (<[ scope ++ [id] := Run.a_Construct ]> t)).
Proof.
  intros Hid (H0 & Hr & _)%unused_paths Hstack.
  unfold Run.new_IAMConstruct.
  erewrite bind_returned by (by apply addChild_returns). cbv beta.
  apply bind_threw. unfold Run.new_Policy.
  erewrite bind_returned.
  2:{ apply addChild_returns; [done|].
      by rewrite lookup_insert_ne by apply path_below_ne. }
  cbv beta. apply bind_threw. apply Stack_of_throws.
  rewrite under_Stack_insert;
    [|by rewrite lookup_insert_ne by apply path_below_ne|done].
  rewrite under_Stack_insert by done.
  unfold Run.under_Stack in *.
  rewrite stack_above_snoc, stack_above_snoc, Hstack, !app_nil_l.
  unfold lookup in *. by rewrite H0, Hr.
Qed.

Lemma planted_this (t : gmap Construct Run.entry) (scope : Construct)
    (id : string) (r w : Policy) :
  node_path r = (scope ++ [id]) ++ ["FMSPolicyRead"] ->
  node_path w = (scope ++ [id]) ++ ["FMSPolicyWrite"] ->
  planted t (scope ++ [id]) r w !! (scope ++ [id]) = Some Run.a_Construct.
Proof.
  intros Hr Hw. unfold planted. rewrite Hr, Hw.
  rewrite lookup_insert_ne by (symmetry; apply path_below_ne).
  rewrite lookup_insert_ne by (symmetry; apply path_below_ne).
  apply lookup_insert_eq.
Qed.

(** ** A sample place *)

Lemma sample_tree_admits (id : string) (props : Run.IIam) :
  id <> EmptyString ->
  is_Some (Run.role props) ->
  admitted sample_tree ["FMSStack"] id props.
Proof.
  intros Hid Hrole. split; [done|]. split; [|by split].
  intros below. unfold sample_tree. by apply lookup_singleton_ne.
Qed.

(** ** No validation; a construction can stop half way *)

(** C2, amended. The constructor validates none of its identifiers and
    is not all or nothing. In a place that takes the construct (a name
    not empty and not in use, a scope under a stack) and with a role:
    when the properties hold a bucket it returns both documents whole,
    the read document with its four statements and the write document
    with its seven, each with its suppression rules, whatever
    identifiers are absent; when the bucket is absent it throws a
    [TypeError] at [po6] (there is no [ValidationError]) and leaves in
    the tree the two policies with the six statements added before. *)
Theorem construction_validates_nothing (t : gmap Construct Run.entry)
    (scope : Construct) (id : string) (props : Run.IIam) :
  admitted t scope id props ->
  (forall b,
     Run.s3Bucket props = Some b ->
     exists c,
       Run.new_IAMConstruct scope id props t
       = (Run.returned c,
          planted t (scope ++ [id]) (readPolicy c) (writePolicy c))
       /\ sid <$> statements (readPolicy c)
          = ["EC2Read0"; "SSMRead05"; "S3Read06"; "DNSRAMRead10"]
       /\ sid <$> statements (writePolicy c)
          = ["DDBWrite01"; "FMSWrite021"; "CloudWatchLogsWrite03";
             "SQSWrite04"; "WAFWrite07"; "DNSWrite08"; "RAMWrite09"]
       /\ length (suppressions (readPolicy c)) = 1
       /\ length (suppressions (writePolicy c)) = 2)
  /\ (Run.s3Bucket props = None ->
      exists rp wp,
        Run.new_IAMConstruct scope id props t
        = (Run.threw (Run.a_TypeError "bucketArn"),
           planted t (scope ++ [id]) rp wp)
        /\ node_path rp = (scope ++ [id]) ++ ["FMSPolicyRead"]
        /\ node_path wp = (scope ++ [id]) ++ ["FMSPolicyWrite"]
        /\ sid <$> statements rp = ["EC2Read0"; "SSMRead05"]
        /\ sid <$> statements wp
           = ["DDBWrite01"; "FMSWrite021"; "CloudWatchLogsWrite03";
              "SQSWrite04"]).
Proof.
  intros Hadm. split.
  - intros b Hb.
    destruct (run_returns t scope id props b Hadm Hb)
      as (c & Hc & _ & _ & _ & _ & _ & Hr & Hw & Hsr & Hsw).
    exists c. by rewrite Hr, Hw, Hsr, Hsw.
  - intros Hb. destruct Hadm as (Hid & Hunused & Hstack & [r Hrole]).
    eexists _, _. split.
    { by apply (run_without_bucket t scope id props r). }
    by rewrite !node_path_with_statements, !statements_with_statements.
Qed.

Lemma sample_admitted_without_values :
  admitted sample_tree ["FMSStack"] "IAMConstruct" props_without_values.
Proof. by apply sample_tree_admits. Qed.

Lemma sample_admitted_without_bucket :
  admitted sample_tree ["FMSStack"] "IAMConstruct" props_without_bucket.
Proof. by apply sample_tree_admits. Qed.

Lemma construction_validates_nothing_witness :
  (admitted sample_tree ["FMSStack"] "IAMConstruct" props_without_values
   /\ exists c,
        Run.new_IAMConstruct ["FMSStack"] "IAMConstruct" props_without_values
          sample_tree
        = (Run.returned c,
           planted sample_tree ["FMSStack"; "IAMConstruct"]
             (readPolicy c) (writePolicy c))
        /\ sid <$> statements (readPolicy c)
           = ["EC2Read0"; "SSMRead05"; "S3Read06"; "DNSRAMRead10"]
        /\ sid <$> statements (writePolicy c)
           = ["DDBWrite01"; "FMSWrite021"; "CloudWatchLogsWrite03";
              "SQSWrite04"; "WAFWrite07"; "DNSWrite08"; "RAMWrite09"]
        /\ length (suppressions (readPolicy c)) = 1
        /\ length (suppressions (writePolicy c)) = 2)
  /\ (admitted sample_tree ["FMSStack"] "IAMConstruct" props_without_bucket
      /\ exists rp wp,
           Run.new_IAMConstruct ["FMSStack"] "IAMConstruct" props_without_bucket
             sample_tree
           = (Run.threw (Run.a_TypeError "bucketArn"),
              planted sample_tree ["FMSStack"; "IAMConstruct"] rp wp)
           /\ node_path rp = ["FMSStack"; "IAMConstruct"; "FMSPolicyRead"]
           /\ node_path wp = ["FMSStack"; "IAMConstruct"; "FMSPolicyWrite"]
           /\ sid <$> statements rp = ["EC2Read0"; "SSMRead05"]
           /\ sid <$> statements wp
              = ["DDBWrite01"; "FMSWrite021"; "CloudWatchLogsWrite03";
                 "SQSWrite04"]).
Proof.
  split.
  - split; [exact sample_admitted_without_values|].
    exact (proj1 (construction_validates_nothing
                    sample_tree ["FMSStack"] "IAMConstruct" props_without_values
                    sample_admitted_without_values)
             {| Run.bucketArn := undefined |} eq_refl).
  - split; [exact sample_admitted_without_bucket|].
    exact (proj2 (construction_validates_nothing
                    sample_tree ["FMSStack"] "IAMConstruct" props_without_bucket
                    sample_admitted_without_bucket)
             eq_refl).
Defined.

(** ** Templates never fail; reading the bucket can *)



(** ** The same identifiers, the same documents; the same place, once *)

(** C7, as the design document states it, fails: after a construction
    in the sample tree has returned, the same construction again, with
    the same scope, id and properties, throws, the name being in use. *)
Lemma stateless_refuted :
  ~ stateless_at sample_tree ["FMSStack"] "IAMConstruct"
      (at_run_time example_props).
Proof.
  intros Hstateless.
  assert (admitted sample_tree ["FMSStack"] "IAMConstruct"
            (at_run_time example_props)) as Hadm
    by (by apply sample_tree_admits).
  destruct (run_returns sample_tree ["FMSStack"] "IAMConstruct"
              (at_run_time example_props) _ Hadm eq_refl)
    as (c & Hc & _ & Hrn & Hwn & _).
  destruct (Hstateless c _ Hc) as (c' & t'' & Hagain & _).
  rewrite run_name_in_use in Hagain; [done|done|].
  rewrite (planted_this _ ["FMSStack"] "IAMConstruct") by done. by eexists.
Qed.

Lemma statements_of_run_identifiers (props1 props2 : Run.IIam)
    (b1 b2 : Run.Bucket) :
  run_identifiers props1 = run_identifiers props2 ->
  Run.s3Bucket props1 = Some b1 ->
  Run.s3Bucket props2 = Some b2 ->
  [Run.po0; Run.po5 props1; Run.po6 (Run.bucketArn b1); Run.po10]
  = [Run.po0; Run.po5 props2; Run.po6 (Run.bucketArn b2); Run.po10]
  /\ [Run.po1 props1; Run.po2; Run.po3 props1; Run.po4 props1;
      Run.po7; Run.po8; Run.po9]
     = [Run.po1 props2; Run.po2; Run.po3 props2; Run.po4 props2;
        Run.po7; Run.po8; Run.po9].
Proof.
  unfold run_identifiers. intros Hids Hb1 Hb2.
  rewrite Hb1, Hb2 in Hids. simpl in Hids.
  injection Hids as Ht Hl Hs Ha Hr Hm Hrp Hop Htp Hb.
  unfold Run.po1, Run.po3, Run.po4, Run.po5, Run.po6.
  by rewrite Ht, Hl, Hs, Ha, Hr, Hm, Hrp, Hop, Htp, Hb.
Qed.

(** C7, amended. The documents depend on nothing but the identifier
    values: two constructions that are admitted where they are made,
    from properties with the same identifier values, both return, with
    equal read documents and equal write documents, whatever the trees,
    the scopes, the ids and the roles. The constructor is not stateless:
    it leaves the construct in the tree under its scope, and a further
    construction with the same scope and id throws, the name being in
    use. *)
Theorem same_identifiers_same_documents
    (t1 : gmap Construct Run.entry) (scope1 : Construct) (id1 : string)
    (props1 : Run.IIam)
    (t2 : gmap Construct Run.entry) (scope2 : Construct) (id2 : string)
    (props2 : Run.IIam) :
  admitted t1 scope1 id1 props1 ->
  admitted t2 scope2 id2 props2 ->
  is_Some (Run.s3Bucket props1) ->
  run_identifiers props1 = run_identifiers props2 ->
  exists c1 t1' c2 t2',
    Run.new_IAMConstruct scope1 id1 props1 t1 = (Run.returned c1, t1')
    /\ Run.new_IAMConstruct scope2 id2 props2 t2 = (Run.returned c2, t2')
    /\ (forall cls, document (policy c1 cls) = document (policy c2 cls))
    /\ (forall props,
          Run.new_IAMConstruct scope1 id1 props t1'
          = (Run.threw (Run.an_Error (Run.name_in_use id1)), t1')).
Proof.
  intros Hadm1 Hadm2 [b1 Hb1] Hids.
  assert (exists b2, Run.s3Bucket props2 = Some b2) as [b2 Hb2].
  { apply (f_equal snd) in Hids. simpl in Hids. rewrite Hb1 in Hids.
    destruct (Run.s3Bucket props2); [by eexists|done]. }
  destruct (statements_of_run_identifiers props1 props2 b1 b2 Hids Hb1 Hb2)
    as [Hread Hwrite].
  destruct (run_returns t1 scope1 id1 props1 b1 Hadm1 Hb1)
    as (c1 & Hc1 & _ & Hrn1 & Hwn1 & _ & _ & Hr1 & Hw1 & Hsr1 & Hsw1).
  destruct (run_returns t2 scope2 id2 props2 b2 Hadm2 Hb2)
    as (c2 & Hc2 & _ & _ & _ & _ & _ & Hr2 & Hw2 & Hsr2 & Hsw2).
  eexists c1, _, c2, _. do 2 (split; [done|]). split.
  - intros [|]; unfold document; simpl.
    + by rewrite Hr1, Hr2, Hsr1, Hsr2, Hread.
    + by rewrite Hw1, Hw2, Hsw1, Hsw2, Hwrite.
  - intros props. apply run_name_in_use; [by destruct Hadm1|].
    rewrite planted_this by done. by eexists.
Qed.

Lemma same_identifiers_same_documents_witness :
  admitted sample_tree ["FMSStack"] "IAMConstruct" (at_run_time example_props)
  /\ admitted sample_tree ["FMSStack"] "Again"
       (at_run_time example_props_other_role)
  /\ is_Some (Run.s3Bucket (at_run_time example_props))
  /\ run_identifiers (at_run_time example_props)
     = run_identifiers (at_run_time example_props_other_role)
  /\ exists c1 t1' c2 t2',
       Run.new_IAMConstruct ["FMSStack"] "IAMConstruct"
         (at_run_time example_props) sample_tree
       = (Run.returned c1, t1')
       /\ Run.new_IAMConstruct ["FMSStack"] "Again"
            (at_run_time example_props_other_role) sample_tree
          = (Run.returned c2, t2')
       /\ (forall cls, document (policy c1 cls) = document (policy c2 cls))
       /\ (forall props,
             Run.new_IAMConstruct ["FMSStack"] "IAMConstruct" props t1'
             = (Run.threw (Run.an_Error (Run.name_in_use "IAMConstruct")), t1')).
Proof.
  assert (admitted sample_tree ["FMSStack"] "IAMConstruct"
            (at_run_time example_props)) as H1
    by (by apply sample_tree_admits).
  assert (admitted sample_tree ["FMSStack"] "Again"
            (at_run_time example_props_other_role)) as H2
    by (by apply sample_tree_admits).
  assert (is_Some (Run.s3Bucket (at_run_time example_props))) as H3
    by (by eexists).
  do 3 (split; [assumption|]). split; [reflexivity|].
  exact (same_identifiers_same_documents _ _ _ _ _ _ _ _ H1 H2 H3 eq_refl).
Defined.

(** ** Values left out *)

(** X5. Where the constructor returns, a statement of either document
    holds [undefined] in the place of a resource exactly when one of the
    six values that are passed as they are (log group, queue ARN, the
    three parameter ARNs, the ARN of the bucket) is absent; an absent
    value that is substituted in a template (region, account id, table,
    metrics queue) never does. *)
Theorem undefined_resource_iff_direct_value_missing
    (t : gmap Construct Run.entry) (scope : Construct) (id : string)
    (props : Run.IIam) (b : Run.Bucket) :
  admitted t scope id props ->
  Run.s3Bucket props = Some b ->
  exists c t',
    Run.new_IAMConstruct scope id props t = (Run.returned c, t')
    /\ ((exists cls s,
           s ∈ statements (policy c cls) /\ undefined ∈ resources s)
        <-> undefined ∈ direct_values props b).
Proof.
  intros Hadm Hb.
  destruct (run_returns t scope id props b Hadm Hb)
    as (c & Hc & _ & _ & _ & _ & _ & Hr & Hw & _).
  eexists c, _. split; [exact Hc|]. unfold direct_values. split.
  - intros (cls & s & Hs & Hu).
    destruct cls; simpl in Hs; [rewrite Hr in Hs | rewrite Hw in Hs];
      repeat (apply elem_of_cons in Hs as [->|Hs];
              [ simpl in Hu;
                repeat (apply elem_of_cons in Hu as [Hu|Hu];
                        [ first [ discriminate Hu
                                | rewrite Hu; in_list ] |]);
                by apply elem_of_nil in Hu |]);
      by apply elem_of_nil in Hs.
  - intros Hu.
    apply elem_of_cons in Hu as [Hu|Hu];
      [exists WRITE, (Run.po3 props); simpl; rewrite Hw, Hu; split; in_list|].
    apply elem_of_cons in Hu as [Hu|Hu];
      [exists WRITE, (Run.po4 props); simpl; rewrite Hw, Hu; split; in_list|].
    do 3 (apply elem_of_cons in Hu as [Hu|Hu];
          [exists READ, (Run.po5 props); simpl; rewrite Hr, Hu; split; in_list|]).
    apply list_elem_of_singleton in Hu.
    exists READ, (Run.po6 (Run.bucketArn b)). simpl. rewrite Hr, <- Hu.
    split; in_list.
Qed.

Lemma undefined_resource_iff_direct_value_missing_witness :
  admitted sample_tree ["FMSStack"] "IAMConstruct" props_without_values
  /\ Run.s3Bucket props_without_values = Some {| Run.bucketArn := undefined |}
  /\ exists c t',
       Run.new_IAMConstruct ["FMSStack"] "IAMConstruct" props_without_values
         sample_tree
       = (Run.returned c, t')
       /\ ((exists cls s,
              s ∈ statements (policy c cls) /\ undefined ∈ resources s)
           <-> undefined
               ∈ direct_values props_without_values
                   {| Run.bucketArn := undefined |}).
Proof.
  split; [exact sample_admitted_without_values|]. split; [reflexivity|].
  exact (undefined_resource_iff_direct_value_missing
           sample_tree ["FMSStack"] "IAMConstruct" props_without_values _
           sample_admitted_without_values eq_refl).
Defined.

(** ** Statements fit for a policy document *)

Lemma is_text_of_defined (v : value) : v <> undefined -> is_text v.
Proof. destruct v as [|x]; [done|]. intros _. by exists x. Qed.

(** X6. Where the constructor returns, every statement of either
    document has at least one action, a non-empty sid of letters and
    digits only, actions of the form [service:verb] and a non-empty list
    of resources; and when none of the six values that are passed as
    they are is absent, every entry of that list is a text, so that each
    statement has at least one resource. *)
Theorem statements_well_formed (t : gmap Construct Run.entry)
    (scope : Construct) (id : string) (props : Run.IIam) (b : Run.Bucket) :
  admitted t scope id props ->
  Run.s3Bucket props = Some b ->
  exists c t',
    Run.new_IAMConstruct scope id props t = (Run.returned c, t')
    /\ (forall cls s, s ∈ statements (policy c cls) -> well_formed s)
    /\ (undefined ∉ direct_values props b ->
        forall cls s,
          s ∈ statements (policy c cls) ->
          Forall is_text (resources s)
          /\ exists x, str x ∈ resources s).
Proof.
  intros Hadm Hb.
  destruct (run_returns t scope id props b Hadm Hb)
    as (c & Hc & _ & _ & _ & _ & _ & Hr & Hw & _).
  eexists c, _. split; [exact Hc|]. split.
  - intros cls s Hs.
    destruct cls; simpl in Hs; [rewrite Hr in Hs | rewrite Hw in Hs];
      repeat (apply elem_of_cons in Hs as [->|Hs];
              [ unfold well_formed; simpl;
                do 4 (split; [done|]);
                repeat (apply Forall_cons; split;
                        [by eapply well_formed_action_intro|]);
                apply Forall_nil_2 |]);
      by apply elem_of_nil in Hs.
  - unfold direct_values. intros Hdef.
    repeat (apply not_elem_of_cons in Hdef as [?%not_eq_sym%is_text_of_defined Hdef]).
    assert (forall l : list value,
               Forall is_text l -> l <> [] ->
               Forall is_text l /\ exists x, str x ∈ l) as Hone.
    { intros [|v l] Hl Hne; [done|]. split; [done|].
      apply Forall_cons in Hl as [[x ->] _]. exists x. in_list. }
    intros cls s Hs.
    destruct cls; simpl in Hs; [rewrite Hr in Hs | rewrite Hw in Hs];
      repeat (apply elem_of_cons in Hs as [->|Hs];
              [ apply Hone; [|done]; simpl;
                repeat (apply Forall_cons; split;
                        [first [assumption | by eexists]|]);
                apply Forall_nil_2 |]);
      by apply elem_of_nil in Hs.
Qed.

Lemma statements_well_formed_witness :
  admitted sample_tree ["FMSStack"] "IAMConstruct" (at_run_time example_props)
  /\ Run.s3Bucket (at_run_time example_props)
     = Some {| Run.bucketArn := str (bucketArn manifest_bucket) |}
  /\ (undefined
      ∉ direct_values (at_run_time example_props)
          {| Run.bucketArn := str (bucketArn manifest_bucket) |})
  /\ exists c t',
       Run.new_IAMConstruct ["FMSStack"] "IAMConstruct"
         (at_run_time example_props) sample_tree
       = (Run.returned c, t')
       /\ (forall cls s, s ∈ statements (policy c cls) -> well_formed s)
       /\ (forall cls s,
             s ∈ statements (policy c cls) ->
             Forall is_text (resources s)
             /\ exists x, str x ∈ resources s).
Proof.
  assert (admitted sample_tree ["FMSStack"] "IAMConstruct"
            (at_run_time example_props)) as Hadm
    by (by apply sample_tree_admits).
  assert (undefined
          ∉ direct_values (at_run_time example_props)
              {| Run.bucketArn := str (bucketArn manifest_bucket) |}) as Hdef
    by (by apply (bool_decide_unpack _)).
  split; [exact Hadm|]. split; [reflexivity|]. split; [exact Hdef|].
  destruct (statements_well_formed
              sample_tree ["FMSStack"] "IAMConstruct" (at_run_time example_props)
              _ Hadm eq_refl)
    as (c & t' & Hc & Hwf & Htext).
  exists c, t'. split; [exact Hc|]. split; [exact Hwf|]. exact (Htext Hdef).
Defined.
